(** * The ACME client charm library and the Gandi LiveDNS v5 charm

    A shallow embedding of
      - [lib/charms/acme_client_operator/v0/acme_client.py] (class [AcmeClient])
      - [src/charm.py] (class [GandiLiveDNSVersion5AcmeOperatorCharm])
    and the properties of the certificate-request handler, of the two
    configuration validators and of the certificate retriever.

    Conventions of the embedding.
      - A Python [str] is a [string]; [bytes] obtained by [.encode()] are the
        same [string] (characters are 8-bit here).
      - A Python [dict] with string keys is a [gmap string _]; a value that
        may be [None] is an [option].
      - The unit status, the files of the workload container and the sequence
        of calls made to the host framework are threaded through a state and
        error monad [M].  What the host framework answers (leadership,
        reachability of the container, the X.509 parser, [urlparse], the
        external [lego] process) is read from a record [World].
      - Calls to [logger] are not part of the model: they change neither the
        status, the files, the relation data nor the control flow.
      - The exceptions modelled are those of the calls the code makes to
        parse the CSR, to parse the server address, to index a list or a
        dictionary, to run lego and to pull the chain. *)

From Stdlib Require Import ZArith Ascii String.
From stdpp Require Import base option list strings gmap.

Local Open Scope Z_scope.

(** ** Python strings *)

Module Py.

(** Truth value of an [Optional[str]]: [None] and the empty string are
    false. *)
Definition truthy (v : option string) : bool :=
  match v with
  | Some (String _ _) => true
  | _ => false
  end.

(** [str.join] *)
Fixpoint join (sep : string) (l : list string) : string :=
  match l with
  | [] => ""
  | [x] => x
  | x :: l' => x +:+ sep +:+ join sep l'
  end.

Fixpoint drop (n : nat) (s : string) : string :=
  match n, s with
  | O, _ => s
  | S _, EmptyString => EmptyString
  | S n', String _ s' => drop n' s'
  end.

(** [str.split(sep)] for a non-empty separator: a left-to-right scan that
    cuts at every occurrence of [sep] not overlapping the previous one.
    [skip] counts the characters of the separator still to be passed over,
    [cur] is the piece being collected (in reverse). *)
Fixpoint split_go (sep : string) (skip : nat) (cur : string) (s : string)
  : list string :=
  match s with
  | EmptyString => [String.rev cur]
  | String c s' =>
      match skip with
      | S k => split_go sep k cur s'
      | O =>
          if String.prefix sep s
          then String.rev cur :: split_go sep (String.length sep - 1) "" s'
          else split_go sep 0 (String c cur) s'
      end
  end.

Definition split (sep : string) (s : string) : list string :=
  split_go sep 0 "" s.

(** [l[i]] for a Python integer index: negative indices count from the
    end, and an index out of range is [None] (an [IndexError]). *)
Definition index {A} (l : list A) (i : Z) : option A :=
  let n := Z.of_nat (length l) in
  if (0 <=? i) then l !! Z.to_nat i
  else if (0 <=? n + i) then l !! Z.to_nat (n + i)
  else None.

(** [sub in s] *)
Definition contains (s sub : string) : Prop :=
  ∃ pre post, s = pre +:+ sub +:+ post.

End Py.

(** ** Regular expressions, as used by [re.match] *)

Module Re.

Inductive regex : Type :=
| Nul : regex                       (* matches nothing *)
| Eps : regex                       (* the empty string *)
| Chr : ascii → regex               (* a literal character *)
| NotChr : ascii → regex            (* [^c] *)
| Cat : regex → regex → regex
| Alt : regex → regex → regex
| Star : regex → regex.

(** [r+] *)
Definition Plus (r : regex) : regex := Cat r (Star r).

Fixpoint nullable (r : regex) : bool :=
  match r with
  | Nul => false
  | Eps => true
  | Chr _ => false
  | NotChr _ => false
  | Cat r1 r2 => nullable r1 && nullable r2
  | Alt r1 r2 => nullable r1 || nullable r2
  | Star _ => true
  end.

Fixpoint deriv (c : ascii) (r : regex) : regex :=
  match r with
  | Nul => Nul
  | Eps => Nul
  | Chr d => if Ascii.eqb c d then Eps else Nul
  | NotChr d => if Ascii.eqb c d then Nul else Eps
  | Cat r1 r2 =>
      if nullable r1
      then Alt (Cat (deriv c r1) r2) (deriv c r2)
      else Cat (deriv c r1) r2
  | Alt r1 r2 => Alt (deriv c r1) (deriv c r2)
  | Star r1 => Cat (deriv c r1) (Star r1)
  end.

(** [re.fullmatch]: the whole string is in the language. *)
Fixpoint fullmatch (r : regex) (s : string) : bool :=
  match s with
  | EmptyString => nullable r
  | String c s' => fullmatch (deriv c r) s'
  end.

(** [re.match]: some prefix of the string is in the language. *)
Fixpoint match_ (r : regex) (s : string) : bool :=
  nullable r ||
  match s with
  | EmptyString => false
  | String c s' => match_ (deriv c r) s'
  end.

(** The language of a regular expression. *)
Inductive matches : regex → string → Prop :=
| MEps : matches Eps ""
| MChr c : matches (Chr c) (String c "")
| MNotChr c d : d ≠ c → matches (NotChr c) (String d "")
| MCat r1 r2 s1 s2 :
    matches r1 s1 → matches r2 s2 → matches (Cat r1 r2) (s1 +:+ s2)
| MAltL r1 r2 s : matches r1 s → matches (Alt r1 r2) s
| MAltR r1 r2 s : matches r2 s → matches (Alt r1 r2) s
| MStarNil r : matches (Star r) ""
| MStarCons r s1 s2 :
    matches r s1 → matches (Star r) s2 → matches (Star r) (s1 +:+ s2).

End Re.

(** ** The host framework: statuses, events, calls, exceptions *)

(** [ops.model] status classes.  [ActiveStatus()] is [ActiveStatus ""]. *)
Inductive Status : Type :=
| ActiveStatus (message : string)
| BlockedStatus (message : string)
| MaintenanceStatus (message : string)
| WaitingStatus (message : string).

(** [isinstance(status, ActiveStatus)] *)
Definition is_active (s : Status) : bool :=
  match s with
  | ActiveStatus _ => true
  | _ => false
  end.

Definition is_blocked (s : Status) : bool :=
  match s with
  | BlockedStatus _ => true
  | _ => false
  end.

(** [CertificateCreationRequestEvent] *)
Record Event : Type := {
  certificate_signing_request : string;
  relation_id : Z;
}.

(** The calls the charm makes on the framework objects, in program order. *)
Inductive Call : Type :=
| SetStatus (s : Status)                       (* self.unit.status = s *)
| Defer (event : Event)                        (* event.defer() *)
| Push (path : string) (make_dirs : bool) (source : string)
| Exec (cmd : list string) (timeout : Z) (working_dir : string)
       (environment : gmap string (option string))
| Pull (path : string)
| SetRelationCertificate (certificate csr ca : string)
       (chain : list string) (rel_id : Z).

Inductive Exn : Type :=
| ValueError (msg : string)
| IndexError
| KeyError (key : string)
| PathError (path : string)
| TimeoutError
| ChangeError (msg : string).

(** The value of a name attribute of a CSR subject: [bytes] or [str]. *)
Inductive AttrValue : Type :=
| BytesValue (b : string)
| StrValue (s : string).

(** The two fields of [urlparse]'s result that the charm reads. *)
Record ParseResult : Type := {
  scheme : string;
  netloc : string;
}.

(** What [self._container.exec(..)] followed by [process.wait_output()]
    does: it returns the two streams, or raises [ExecError] with the exit
    code and the standard error, or raises another exception of the
    framework ([TimeoutError] when the timeout passes, [ChangeError] when the
    change fails).  [_execute_lego_cmd] catches [ExecError] only. *)
Inductive ExecResult : Type :=
| WaitOutput (stdout stderr : string)
| ExecError (exit_code : Z) (stderr : string)
| WaitRaises (e : Exn).

(** What the framework and the libraries answer during one hook.
    [load_pem_x509_csr] gives the values of the common-name attributes of the
    subject, or the exception raised while parsing; [urlparse] gives the
    parts of an address, or the exception it raises (a [ValueError] on an
    address such as [http://[]); [lego] is the external process, which reads
    and writes the files of the container. *)
Record World : Type := {
  config : gmap string string;
  is_leader : bool;
  can_connect : bool;
  load_pem_x509_csr : string → Exn + list AttrValue;
  urlparse : string → Exn + ParseResult;
  lego : list string → gmap string (option string) →
         gmap string string → ExecResult * gmap string string;
}.

Record State : Type := {
  status : Status;
  files : gmap string string;
  calls : list Call;
}.

(** ** The state and error monad *)

Definition M (A : Type) : Type := World → State → (Exn + A) * State.

Global Instance M_ret : MRet M := λ A (a : A) _ st, (inr a, st).

Global Instance M_bind : MBind M := λ A B (f : A → M B) (m : M A) w st,
  match m w st with
  | (inl e, st') => (inl e, st')
  | (inr a, st') => f a w st'
  end.

Definition raise {A} (e : Exn) : M A := λ _ st, (inl e, st).

Definition ask : M World := λ w st, (inr w, st).

Definition record (c : Call) : M unit := λ _ st,
  (inr (), {| status := status st; files := files st;
              calls := calls st ++ [c] |}).

(** [self.unit.status] *)
Definition get_status : M Status := λ _ st, (inr (status st), st).

(** [self.unit.status = s]: the status is overwritten as a whole. *)
Definition set_status (s : Status) : M unit := λ _ st,
  (inr (), {| status := s; files := files st;
              calls := calls st ++ [SetStatus s] |}).

(** [event.defer()] *)
Definition defer (event : Event) : M unit := record (Defer event).

(** [self._container.push(path=.., make_dirs=True, source=..)]: the file is
    created or overwritten. *)
Definition container_push (path : string) (make_dirs : bool) (source : string)
  : M unit := λ _ st,
  (inr (), {| status := status st; files := <[path := source]> (files st);
              calls := calls st ++ [Push path make_dirs source] |}).

(** [self._container.pull(path=..).read()] *)
Definition container_pull (path : string) : M string := λ _ st,
  let st' := {| status := status st; files := files st;
                calls := calls st ++ [Pull path] |} in
  match files st !! path with
  | Some content => (inr content, st')
  | None => (inl (PathError path), st')
  end.

(** [self._container.exec(cmd, timeout=.., working_dir=.., environment=..)]
    followed by [process.wait_output()]. *)
Definition container_exec (cmd : list string) (timeout : Z)
    (working_dir : string) (environment : gmap string (option string))
  : M ExecResult := λ w st,
  let '(r, fs) := lego w cmd environment (files st) in
  (inr r, {| status := status st; files := fs;
             calls := calls st ++ [Exec cmd timeout working_dir environment] |}).

(** [from_option] with an exception for [None]. *)
Definition or_raise {A} (e : Exn) (o : option A) : M A :=
  match o with
  | Some a => mret a
  | None => raise e
  end.

(** ** [AcmeClient] (acme_client.py) *)

(** The members a concrete charm supplies: the name of the lego plugin given
    to [__init__], the property [_plugin_config] (computed from the model
    configuration) and the hook [_on_config_changed]. *)
Class AcmeClient : Type := {
  _plugin : string;
  _plugin_config : gmap string string → gmap string (option string);
  _on_config_changed : Event → M unit;
}.

Definition _csr_path : string := "/tmp/csr.pem".
Definition _certs_path : string := "/tmp/.lego/certificates/".

(** [self.model.config.get("email", None)] *)
Definition _email : M (option string) :=
  w ← ask; mret (config w !! "email").

(** [self.model.config.get("server", None)] *)
Definition _server : M (option string) :=
  w ← ask; mret (config w !! "server").

(** The pattern [[^@]+@[^@]+\.[^@]+] *)
Definition email_pattern : Re.regex :=
  Re.Cat (Re.Plus (Re.NotChr "@"))
    (Re.Cat (Re.Chr "@")
       (Re.Cat (Re.Plus (Re.NotChr "@"))
          (Re.Cat (Re.Chr ".") (Re.Plus (Re.NotChr "@"))))).

Definition _email_is_valid (email : string) : bool :=
  if negb (Re.match_ email_pattern email) then false else true.

Definition _server_is_valid (server : string) : M bool :=
  w ← ask;
  match urlparse w server with
  | inl e => raise e
  | inr urlparts =>
      if negb (forallb Py.truthy
                 [Some (scheme urlparts); Some (netloc urlparts)])
      then mret false
      else mret true
  end.

Definition validate_generic_acme_config : M bool :=
  email ← _email;
  if negb (Py.truthy email) then
    set_status (BlockedStatus "Email address was not provided");; mret false
  else
  server ← _server;
  if negb (Py.truthy server) then
    set_status (BlockedStatus "ACME server was not provided");; mret false
  else
  if negb (_email_is_valid (default "" email)) then
    set_status (BlockedStatus "Invalid email address");; mret false
  else
  valid ← _server_is_valid (default "" server);
  if negb valid then
    set_status (BlockedStatus "Invalid ACME server");; mret false
  else mret true.

(** [bytes.decode()] is the identity on 8-bit strings. *)
Definition _get_subject_from_csr (certificate_signing_request : string)
  : M string :=
  w ← ask;
  match load_pem_x509_csr w certificate_signing_request with
  | inl e => raise e
  | inr common_names =>
      subject_value ← or_raise IndexError (Py.index common_names 0);
      match subject_value with
      | BytesValue b => mret b
      | StrValue s => mret s
      end
  end.

Definition _push_csr_to_workload (csr : string) : M unit :=
  container_push _csr_path true csr.

Definition _cmd `{AcmeClient} : M (list string) :=
  email ← _email;
  if negb (Py.truthy email) then raise (ValueError "Email address was not provided")
  else
  server ← _server;
  if negb (Py.truthy server) then raise (ValueError "ACME server was not provided")
  else
  mret ["lego"; "--email"; default "" email; "--accept-tos"; "--csr"; _csr_path;
        "--server"; default "" server; "--dns"; _plugin; "run"].

Definition _execute_lego_cmd `{AcmeClient} : M bool :=
  cmd ← _cmd;
  w ← ask;
  process ← container_exec cmd 300 "/tmp" (_plugin_config (config w));
  match process with
  | WaitOutput stdout error => mret true
  | ExecError exit_code stderr => mret false
  | WaitRaises e => raise e
  end.

Definition _pull_certificates_from_workload (csr_subject : string)
  : M (list string) :=
  chain_pem ← container_pull (_certs_path +:+ csr_subject +:+ ".crt");
  mret (Py.split (String "010" (String "010" "")) chain_pem).

Definition set_relation_certificate (certificate csr ca : string)
    (chain : list string) (rel_id : Z) : M unit :=
  record (SetRelationCertificate certificate csr ca chain rel_id).

Definition _on_certificate_creation_request `{AcmeClient} (event : Event)
  : M unit :=
  _on_config_changed event;;
  st ← get_status;
  if negb (is_active st) then defer event
  else
  w ← ask;
  if negb (is_leader w) then mret ()
  else
  if negb (can_connect w) then
    set_status (WaitingStatus "Waiting for container to be ready");;
    defer event
  else
  csr_subject ← _get_subject_from_csr (certificate_signing_request event);
  if (64 <? String.length csr_subject)%nat then
    set_status
      (BlockedStatus ("Subject is too long (> 64 characters): " +:+ csr_subject))
  else
  _push_csr_to_workload (certificate_signing_request event);;
  set_status (MaintenanceStatus "Executing lego command");;
  ok ← _execute_lego_cmd;
  if negb ok then
    set_status
      (BlockedStatus
         "Workload command execution failed, use `juju debug-log` for more information.")
  else
  signed_certificates ← _pull_certificates_from_workload csr_subject;
  certificate ← or_raise IndexError (Py.index signed_certificates 0);
  ca ← or_raise IndexError (Py.index signed_certificates (-1));
  set_relation_certificate certificate (certificate_signing_request event) ca
    (reverse signed_certificates) (relation_id event);;
  set_status (ActiveStatus "").

(** ** [GandiLiveDNSVersion5AcmeOperatorCharm] (charm.py) *)

Module Gandi.

Definition REQUIRED_CONFIG : list string := ["GANDIV5_API_KEY"].

Definition _gandi_api_key (cfg : gmap string string) := cfg !! "gandi_api_key".
Definition _gandi_http_timeout (cfg : gmap string string) :=
  cfg !! "gandi_http_timeout".
Definition _gandi_polling_interval (cfg : gmap string string) :=
  cfg !! "gandi_polling_interval".
Definition _gandi_propagation_timeout (cfg : gmap string string) :=
  cfg !! "gandi_propagation_timeout".
Definition _gandi_ttl (cfg : gmap string string) := cfg !! "gandi_ttl".

(** An optional setting is added to the dictionary only when it is set. *)
Definition set_if_truthy (key : string) (v : option string)
    (d : gmap string (option string)) : gmap string (option string) :=
  if Py.truthy v then <[key := v]> d else d.

Definition plugin_config (cfg : gmap string string)
  : gmap string (option string) :=
  let additional_config := {[ "GANDIV5_API_KEY" := _gandi_api_key cfg ]} in
  let additional_config :=
    set_if_truthy "GANDIV5_HTTP_TIMEOUT" (_gandi_http_timeout cfg)
      additional_config in
  let additional_config :=
    set_if_truthy "GANDIV5_POLLING_INTERVAL" (_gandi_polling_interval cfg)
      additional_config in
  let additional_config :=
    set_if_truthy "GANDIV5_PROPAGATION_TIMEOUT"
      (_gandi_propagation_timeout cfg) additional_config in
  let additional_config :=
    set_if_truthy "GANDIV5_TTL" (_gandi_ttl cfg) additional_config in
  additional_config.

(** [[option for option in required if not plugin_config[option]]]:
    indexing with an absent key raises [KeyError]. *)
Fixpoint missing_config (required : list string)
    (d : gmap string (option string)) : Exn + list string :=
  match required with
  | [] => inr []
  | option :: rest =>
      match d !! option with
      | None => inl (KeyError option)
      | Some v =>
          match missing_config rest d with
          | inl e => inl e
          | inr l => inr (if negb (Py.truthy v) then option :: l else l)
          end
      end
  end.

(** The body of [_validate_gandi_livedns_config], over the two attributes
    of [self] it reads. *)
Definition validate_required_config (required : list string)
    (d : gmap string (option string)) : M bool :=
  match missing_config required d with
  | inl e => raise e
  | inr [] => mret true
  | inr missing =>
      let msg := "The following config options must be set: "
                 +:+ Py.join ", " missing in
      set_status (BlockedStatus msg);; mret false
  end.

Definition _validate_gandi_livedns_config : M bool :=
  w ← ask; validate_required_config REQUIRED_CONFIG (plugin_config (config w)).

Definition on_config_changed (_ : Event) : M unit :=
  ok ← _validate_gandi_livedns_config;
  if negb ok then mret ()
  else
  ok ← validate_generic_acme_config;
  if negb ok then mret ()
  else set_status (ActiveStatus "").

Global Instance charm : AcmeClient := {|
  _plugin := "gandiv5";
  _plugin_config := plugin_config;
  _on_config_changed := on_config_changed;
|}.

End Gandi.

(** ** Specification-level notions *)

(** [free_of c s]: the character [c] does not occur in [s]. *)
Fixpoint free_of (c : ascii) (s : string) : Prop :=
  match s with
  | EmptyString => True
  | String d s' => d ≠ c ∧ free_of c s'
  end.

(** One or more characters other than [c]. *)
Definition some_not (c : ascii) (s : string) : Prop := s ≠ "" ∧ free_of c s.

(** The shape the email check asks for: the string starts with one or more
    non-[@] characters, [@], one or more non-[@] characters, a dot, one or
    more non-[@] characters.  As with [re.match], what follows is free. *)
Definition email_format (email : string) : Prop :=
  ∃ loc dom tld rest,
    email = loc +:+ "@" +:+ dom +:+ "." +:+ tld +:+ rest ∧
    some_not "@" loc ∧ some_not "@" dom ∧ some_not "@" tld.

(** The invariant of the scan of [Py.split_go]: no non-empty end of the piece
    being collected ([cur], in reverse), followed by what is still to be
    read, starts with the separator. *)
Definition no_sep_ahead (sep cur s : string) : Prop :=
  ∀ t u, String.rev cur = t +:+ u → u ≠ "" →
         String.prefix sep (u +:+ s) = false.

(** A setting is present when it has a non-empty value. *)
Definition present (v : option string) : Prop := ∃ x, v = Some x ∧ x ≠ "".

(** The state after [self.unit.status = s] and nothing else. *)
Definition status_set (s : Status) (st : State) : State :=
  {| status := s; files := files st; calls := calls st ++ [SetStatus s] |}.

(** The state after the calls [l], made in this order, that leave the status
    [s] and the files [fs]. *)
Definition after (st : State) (s : Status) (fs : gmap string string)
    (l : list Call) : State :=
  {| status := s; files := fs; calls := calls st ++ l |}.

(** The required keys whose value is unset ([None]) or empty, in the order
    of the list of required keys. *)
Definition unset_keys (required : list string)
    (d : gmap string (option string)) : list string :=
  List.filter (λ k, negb (Py.truthy (mjoin (d !! k)))) required.

(** A computation that only adds calls after those already made. *)
Definition appending {A} (m : M A) : Prop :=
  ∀ w st, calls st `prefix_of` calls (m w st).2.

(** The command line [_cmd] builds. *)
Definition lego_command `{AcmeClient} (w : World) : list string :=
  ["lego"; "--email"; default "" (config w !! "email"); "--accept-tos";
   "--csr"; _csr_path; "--server"; default "" (config w !! "server");
   "--dns"; _plugin; "run"].

(** The run of [lego] for the request [event], started with the files of
    [st1] and the CSR of the request in its place. *)
Definition lego_run `{AcmeClient} (event : Event) (w : World) (st1 : State)
  : ExecResult * gmap string string :=
  lego w (lego_command w) (_plugin_config (config w))
    (<[_csr_path := certificate_signing_request event]> (files st1)).

(** The calls of the handler from the push of the CSR to the run of
    [lego]. *)
Definition execution_calls `{AcmeClient} (event : Event) (w : World)
  : list Call :=
  [Push _csr_path true (certificate_signing_request event);
   SetStatus (MaintenanceStatus "Executing lego command");
   Exec (lego_command w) 300 "/tmp" (_plugin_config (config w))].

Definition execution_failed : Status :=
  BlockedStatus
    "Workload command execution failed, use `juju debug-log` for more information.".

(** The file the chain of [subject] is read from. *)
Definition chain_path (subject : string) : string :=
  _certs_path +:+ subject +:+ ".crt".

(** The separator of the blocks of a chain: an empty line. *)
Definition blank_line : string := String "010" (String "010" "").

(** [occurs_before p q l]: in [l], a call satisfying [p] comes before a
    call satisfying [q]. *)
Fixpoint occurs_before (p q : Call → bool) (l : list Call) : bool :=
  match l with
  | [] => false
  | c :: l' => (p c && existsb q l') || occurs_before p q l'
  end.

Definition is_set_maintenance (c : Call) : bool :=
  match c with
  | SetStatus (MaintenanceStatus _) => true
  | _ => false
  end.

Definition is_push (c : Call) : bool :=
  match c with
  | Push _ _ _ => true
  | _ => false
  end.

Definition is_exec (c : Call) : bool :=
  match c with
  | Exec _ _ _ _ => true
  | _ => false
  end.

(** The order of the steps "set Maintenance, push the CSR, run the client". *)
Definition maintenance_push_run (l : list Call) : Prop :=
  occurs_before is_set_maintenance is_push l = true ∧
  occurs_before is_push is_exec l = true.

(** The order of the steps "push the CSR, set Maintenance, run the client". *)
Definition push_maintenance_run (l : list Call) : Prop :=
  occurs_before is_push is_set_maintenance l = true ∧
  occurs_before is_set_maintenance is_exec l = true.

(** "An execution failure results in Blocked status and the handler
    stopping": the handler returns and leaves a [Blocked] status. *)
Definition stops_blocked (final : (Exn + ()) * State) : Prop :=
  final.1 = inr () ∧ is_blocked (status final.2) = true.

(** "The handler sets Waiting status and defers the event". *)
Definition waits_and_defers (event : Event) (final : (Exn + ()) * State)
  : Prop :=
  (∃ msg, status final.2 = WaitingStatus msg) ∧ Defer event ∈ calls final.2.

(** A chain without an empty last block. *)
Definition no_empty_trailing_block (blocks : list string) : Prop :=
  last blocks ≠ Some "".

(** ** Sample configurations and answers of the framework *)

Module Sample.

Definition nl : string := String "010" "".

Definition acme_server : string :=
  "https://acme-v02.api.letsencrypt.org/directory".

(** An address on which [urlparse] raises. *)
Definition malformed_server : string := "http://[".

(** The answers of [urlparse] on the servers of the samples. *)
Definition urlparse_sample (url : string) : Exn + ParseResult :=
  if decide (url = acme_server)
  then inr {| scheme := "https"; netloc := "acme-v02.api.letsencrypt.org" |}
  else if decide (url = malformed_server)
  then inl (ValueError "Invalid IPv6 URL")
  else inr {| scheme := ""; netloc := "" |}.

(** A workload without [lego]: every run exits with status 1. *)
Definition lego_fails (cmd : list string)
    (env : gmap string (option string)) (fs : gmap string string)
  : ExecResult * gmap string string :=
  (ExecError 1 "lego: not found", fs).

(** A run of [lego] that does not end within the timeout. *)
Definition lego_times_out (cmd : list string)
    (env : gmap string (option string)) (fs : gmap string string)
  : ExecResult * gmap string string :=
  (WaitRaises TimeoutError, fs).

(** A run of [lego] that writes the chain [content] for [subject]. *)
Definition lego_writes (subject content : string) (cmd : list string)
    (env : gmap string (option string)) (fs : gmap string string)
  : ExecResult * gmap string string :=
  (WaitOutput "" "", <[_certs_path +:+ subject +:+ ".crt" := content]> fs).

Definition world (cfg : gmap string string) (leader connect : bool)
    (subject : string)
    (run : list string → gmap string (option string) →
           gmap string string → ExecResult * gmap string string) : World :=
  {| config := cfg; is_leader := leader; can_connect := connect;
     load_pem_x509_csr := λ _, inr [StrValue subject];
     urlparse := urlparse_sample;
     lego := run |}.

Definition valid_config : gmap string string :=
  {[ "email" := "example@email.com"; "server" := acme_server;
     "gandi_api_key" := "dummy key" ]}.

(** The configurations of the unit tests. *)
Definition invalid_email_config : gmap string string :=
  {[ "email" := "invalid-email"; "server" := acme_server;
     "gandi_api_key" := "dummy key" ]}.

Definition no_api_key_config : gmap string string :=
  {[ "email" := "invalid-email"; "server" := acme_server ]}.

Definition malformed_server_config : gmap string string :=
  {[ "email" := "example@email.com"; "server" := malformed_server;
     "gandi_api_key" := "dummy key" ]}.

Definition start : State :=
  {| status := MaintenanceStatus ""; files := ∅; calls := [] |}.

Definition request : Event :=
  {| certificate_signing_request := "-----BEGIN CERTIFICATE REQUEST-----";
     relation_id := 7 |}.

Definition chain3 : string :=
  "LEAF" +:+ nl +:+ nl +:+ "INTERMEDIATE" +:+ nl +:+ nl +:+ "ROOT".

Definition long_subject : string :=
  "aaaaaaaaaaaaaaaaaaaaaaaaaaaaaaaaaaaaaaaaaaaaaaaaaaaaaaaaaaaaaaaaa".

End Sample.

(** The optional settings of the Gandi charm, each with the variable of the
    lego plugin it is passed in. *)
Definition gandi_optional_settings : list (string * string) :=
  [("gandi_http_timeout", "GANDIV5_HTTP_TIMEOUT");
   ("gandi_polling_interval", "GANDIV5_POLLING_INTERVAL");
   ("gandi_propagation_timeout", "GANDIV5_PROPAGATION_TIMEOUT");
   ("gandi_ttl", "GANDIV5_TTL")].

Definition newline : string := String "010" "".

(** Blocks that can be told apart when they are written with an empty line
    between them: none contains an empty line, and none but the last ends
    with a newline. *)
Definition well_separated (blocks : list string) : Prop :=
  (∀ block, block ∈ blocks → ¬ Py.contains block blank_line) ∧
  (∀ block, block ∈ removelast blocks → ∀ s, block ≠ s +:+ newline).

Definition executing : Status := MaintenanceStatus "Executing lego command".

Definition waiting_for_container : Status :=
  WaitingStatus "Waiting for container to be ready".

(** The ways a run of [_on_certificate_creation_request] can end once the
    hook has returned in the state [st1]: the result, the status and the
    files it leaves, and the calls it has added to those of [st1]. *)
Inductive handler_run `{AcmeClient} (event : Event) (w : World) (st1 : State)
  : Exn + () → Status → gmap string string → list Call → Prop :=
| RunDeferred :
    is_active (status st1) = false →
    handler_run event w st1 (inr ()) (status st1) (files st1) [Defer event]
| RunNotLeader :
    is_active (status st1) = true → is_leader w = false →
    handler_run event w st1 (inr ()) (status st1) (files st1) []
| RunWaiting :
    is_active (status st1) = true → is_leader w = true →
    can_connect w = false →
    handler_run event w st1 (inr ()) waiting_for_container (files st1)
      [SetStatus waiting_for_container; Defer event]
| RunBadCsr e :
    is_active (status st1) = true →
    _get_subject_from_csr (certificate_signing_request event) w st1
      = (inl e, st1) →
    handler_run event w st1 (inl e) (status st1) (files st1) []
| RunLongSubject subject :
    is_active (status st1) = true →
    (64 < String.length subject)%nat →
    handler_run event w st1 (inr ())
      (BlockedStatus ("Subject is too long (> 64 characters): " +:+ subject))
      (files st1)
      [SetStatus
         (BlockedStatus
            ("Subject is too long (> 64 characters): " +:+ subject))]
| RunNoCommand msg :
    is_active (status st1) = true →
    ¬ (present (config w !! "email") ∧ present (config w !! "server")) →
    handler_run event w st1 (inl (ValueError msg)) executing
      (<[_csr_path := certificate_signing_request event]> (files st1))
      [Push _csr_path true (certificate_signing_request event);
       SetStatus executing]
| RunFailed code stderr :
    is_active (status st1) = true →
    present (config w !! "email") → present (config w !! "server") →
    (lego_run event w st1).1 = ExecError code stderr →
    handler_run event w st1 (inr ()) execution_failed (lego_run event w st1).2
      (execution_calls event w ++ [SetStatus execution_failed])
| RunLegoRaised e :
    is_active (status st1) = true →
    present (config w !! "email") → present (config w !! "server") →
    (lego_run event w st1).1 = WaitRaises e →
    handler_run event w st1 (inl e) executing (lego_run event w st1).2
      (execution_calls event w)
| RunNoChain subject out err :
    is_active (status st1) = true →
    present (config w !! "email") → present (config w !! "server") →
    (lego_run event w st1).1 = WaitOutput out err →
    (lego_run event w st1).2 !! chain_path subject = None →
    handler_run event w st1 (inl (PathError (chain_path subject))) executing
      (lego_run event w st1).2
      (execution_calls event w ++ [Pull (chain_path subject)])
| RunPublished subject out err content leaf ca :
    is_active (status st1) = true →
    present (config w !! "email") → present (config w !! "server") →
    (lego_run event w st1).1 = WaitOutput out err →
    (lego_run event w st1).2 !! chain_path subject = Some content →
    head (Py.split blank_line content) = Some leaf →
    last (Py.split blank_line content) = Some ca →
    handler_run event w st1 (inr ()) (ActiveStatus "")
      (lego_run event w st1).2
      (execution_calls event w ++
       [Pull (chain_path subject);
        SetRelationCertificate leaf (certificate_signing_request event) ca
          (reverse (Py.split blank_line content)) (relation_id event);
        SetStatus (ActiveStatus "")]).

Definition is_publish (c : Call) : bool :=
  match c with
  | SetRelationCertificate _ _ _ _ _ => true
  | _ => false
  end.

Definition is_defer (c : Call) : bool :=
  match c with
  | Defer _ => true
  | _ => false
  end.

(** The calls that reach the workload container or the relation. *)
Definition is_workload_call (c : Call) : bool :=
  match c with
  | Push _ _ _ | Exec _ _ _ _ | Pull _ => true
  | _ => false
  end.

Definition is_maintenance (s : Status) : bool :=
  match s with
  | MaintenanceStatus _ => true
  | _ => false
  end.

(** [urlparse] finds a scheme and a host in the server of the
    configuration. *)
Definition server_well_formed (w : World) : Prop :=
  ∃ url, urlparse w (default "" (config w !! "server")) = inr url ∧
         scheme url ≠ "" ∧ netloc url ≠ "".

(** A configuration the Gandi charm accepts. *)
Definition gandi_config_valid (w : World) : Prop :=
  present (config w !! "gandi_api_key") ∧ present (config w !! "email") ∧
  present (config w !! "server") ∧
  email_format (default "" (config w !! "email")) ∧
  server_well_formed w.

(** A configuration on which the hook of the Gandi charm raises [e]: the
    checks made before the server is parsed pass, and [urlparse] raises [e]
    on the server. *)
Definition gandi_server_unparsable (w : World) (e : Exn) : Prop :=
  present (config w !! "gandi_api_key") ∧ present (config w !! "email") ∧
  present (config w !! "server") ∧
  email_format (default "" (config w !! "email")) ∧
  urlparse w (default "" (config w !! "server")) = inl e.

(** * Properties *)

Local Arguments String.append : simpl nomatch.

(** ** Strings *)

Section string_facts.
Implicit Types s t u : string.

Lemma str_app_nil_r s : s +:+ "" = s.
Proof. induction s as [|c s IH]; simpl; [done | by rewrite IH]. Qed.

Lemma str_app_assoc s t u : (s +:+ t) +:+ u = s +:+ t +:+ u.
Proof. induction s as [|c s IH]; simpl; [done | by rewrite IH]. Qed.

Lemma str_app_eq_nil s t : s +:+ t = "" → s = "" ∧ t = "".
Proof. destruct s; simpl; [done | discriminate]. Qed.

(** How a concatenation can start with a given character. *)
Lemma str_app_eq_cons s t c u :
  s +:+ t = String c u →
  (s = "" ∧ t = String c u) ∨ (∃ s', s = String c s' ∧ u = s' +:+ t).
Proof.
  destruct s as [|d s]; simpl; intros Heq; [by left |].
  injection Heq as -> <-. right. by exists s.
Qed.

Lemma str_length_app s t :
  String.length (s +:+ t) = (String.length s + String.length t)%nat.
Proof. induction s as [|c s IH]; simpl; [done | by rewrite IH]. Qed.

Lemma rev_app_spec s t : String.rev_app s t = String.rev s +:+ t.
Proof.
  unfold String.rev. revert t.
  induction s as [|c s IH]; intros t; simpl; [done |].
  rewrite (IH (String c "")), IH, str_app_assoc. done.
Qed.

Lemma rev_cons c s : String.rev (String c s) = String.rev s +:+ String c "".
Proof. unfold String.rev at 1. simpl. apply rev_app_spec. Qed.

(** A prefix can be cut off and put back. *)
Lemma prefix_drop s t :
  String.prefix s t = true → s +:+ Py.drop (String.length s) t = t.
Proof.
  revert t. induction s as [|c s IH]; intros [|d t]; simpl; try done.
  destruct (ascii_dec c d) as [->|]; [|done].
  intros Hp. by rewrite (IH _ Hp).
Qed.

Lemma contains_app_r s t : Py.contains (s +:+ t) t.
Proof. exists s, "". by rewrite str_app_nil_r. Qed.

Lemma contains_app_l s t : Py.contains (s +:+ t) s.
Proof. by exists "", t. Qed.

Lemma contains_prepend u s t : Py.contains s t → Py.contains (u +:+ s) t.
Proof.
  intros (pre & post & ->). exists (u +:+ pre), post. by rewrite str_app_assoc.
Qed.

Lemma prefix_app s t : String.prefix s (s +:+ t) = true.
Proof.
  induction s as [|c s IH]; simpl; [by destruct t |].
  by destruct (ascii_dec c c).
Qed.

Lemma contains_nil s : Py.contains "" s → s = "".
Proof.
  intros (pre & post & Heq). symmetry in Heq.
  apply str_app_eq_nil in Heq as [_ Heq]. by apply str_app_eq_nil in Heq as [-> _].
Qed.

(** A non-empty end of [s +:+ c] is an end of [s] followed by [c]. *)
Lemma str_app_snoc_inv s c t u :
  s +:+ String c "" = t +:+ u → u ≠ "" →
  ∃ u0, u = u0 +:+ String c "" ∧ s = t +:+ u0.
Proof.
  revert s. induction t as [|d t IH]; intros s Heq Hu; simpl in *.
  - by exists s.
  - destruct s as [|e s]; simpl in *.
    + injection Heq as _ Heq. symmetry in Heq.
      by apply str_app_eq_nil in Heq as [_ ->].
    + injection Heq as -> Heq. destruct (IH s Heq Hu) as (u0 & -> & ->).
      by exists u0.
Qed.

End string_facts.

(** ** [str.split] and [str.join] *)

Section split_facts.
Variable sep : string.

Lemma split_go_nonempty skip cur s : Py.split_go sep skip cur s ≠ [].
Proof.
  revert skip cur.
  induction s as [|c s IH]; intros skip cur; cbn [Py.split_go]; [done |].
  destruct skip; [|apply IH].
  destruct (String.prefix sep (String c s)); [done | apply IH].
Qed.

Lemma split_nonempty s : Py.split sep s ≠ [].
Proof. apply split_go_nonempty. Qed.

Lemma join_cons x l :
  l ≠ [] → Py.join sep (x :: l) = x +:+ sep +:+ Py.join sep l.
Proof. by destruct l. Qed.

Hypothesis sep_nonempty : sep ≠ "".

Lemma join_split_go skip cur s :
  Py.join sep (Py.split_go sep skip cur s) = String.rev cur +:+ Py.drop skip s.
Proof.
  revert skip cur. induction s as [|c s IH]; intros skip cur.
  - destruct skip; simpl; by rewrite str_app_nil_r.
  - destruct skip as [|k]; [|apply IH].
    cbn [Py.split_go]. destruct (String.prefix sep (String c s)) eqn:Hp.
    + rewrite join_cons by apply split_go_nonempty.
      rewrite IH. f_equal. change (String.rev "") with "". simpl Py.drop at 2.
      apply prefix_drop in Hp. destruct sep as [|a sep']; [done |].
      simpl in *. rewrite Nat.sub_0_r. exact Hp.
    + rewrite IH, rev_cons, str_app_assoc. done.
Qed.

(** Joining the pieces with the separator gives the string back. *)
Lemma join_split s : Py.join sep (Py.split sep s) = s.
Proof. unfold Py.split. by rewrite join_split_go. Qed.

Lemma clean_nil s : no_sep_ahead sep "" s.
Proof.
  intros t u Heq Hu. symmetry in Heq.
  by apply str_app_eq_nil in Heq as [_ ->].
Qed.

Lemma clean_no_sep cur s :
  no_sep_ahead sep cur s → (s = "" ∨ String.prefix sep s = true) →
  ¬ Py.contains (String.rev cur) sep.
Proof using sep_nonempty.
  intros Hclean Hs (pre & post & Heq).
  assert (Hne : sep +:+ post ≠ "") by (by destruct sep).
  specialize (Hclean pre (sep +:+ post) Heq Hne).
  by rewrite str_app_assoc, prefix_app in Hclean.
Qed.

Lemma split_go_no_sep s skip cur p :
  match skip with O => no_sep_ahead sep cur s | S _ => cur = "" end →
  p ∈ Py.split_go sep skip cur s → ¬ Py.contains p sep.
Proof using sep_nonempty.
  revert skip cur.
  induction s as [|c s IH]; intros skip cur Hinv; cbn [Py.split_go].
  - intros ->%list_elem_of_singleton. destruct skip.
    + apply (clean_no_sep _ ""); auto.
    + subst cur. by intros ?%contains_nil.
  - destruct skip as [|k].
    + destruct (String.prefix sep (String c s)) eqn:Hp.
      * intros [->|Hin]%elem_of_cons.
        -- apply (clean_no_sep _ (String c s)); auto.
        -- eapply IH; [|exact Hin].
           destruct (String.length sep - 1)%nat; [apply clean_nil | done].
      * apply IH. intros t u Heq Hu. rewrite rev_cons in Heq.
        apply str_app_snoc_inv in Heq as (u0 & -> & Hcur); [|done].
        rewrite str_app_assoc. simpl. destruct u0 as [|d u0]; [done |].
        by apply (Hinv t).
    + subst cur. apply IH. destruct k; [apply clean_nil | done].
Qed.

(** No piece contains the separator. *)
Lemma split_no_sep s p : p ∈ Py.split sep s → ¬ Py.contains p sep.
Proof using sep_nonempty.
  apply split_go_no_sep, clean_nil.
Qed.

End split_facts.

(** ** Regular expressions: the matcher computes the language *)

Section regex_facts.
Import Re.

Lemma nullable_spec r : nullable r = true ↔ matches r "".
Proof.
  split.
  - induction r as [| | | |r1 IH1 r2 IH2|r1 IH1 r2 IH2|r1 IH1]; simpl;
      intros Hn; try done.
    + constructor.
    + apply andb_true_iff in Hn as [H1 H2].
      change "" with ("" +:+ ""). constructor; auto.
    + apply orb_true_iff in Hn as [H1|H2]; [apply MAltL | apply MAltR]; auto.
    + constructor.
  - intros Hm. remember "" as s eqn:Hs.
    induction Hm as [| | |r1 r2 s1 s2 _ IH1 _ IH2|r1 r2 s _ IH|r1 r2 s _ IH
                    | |r1 s1 s2 _ _ _ _]; simpl; try done.
    + apply str_app_eq_nil in Hs as [-> ->]. by rewrite IH1, IH2.
    + by rewrite IH.
    + rewrite IH by done. apply orb_true_r.
Qed.

Lemma deriv_sound c r s : matches (deriv c r) s → matches r (String c s).
Proof.
  revert s.
  induction r as [| |d|d|r1 IH1 r2 IH2|r1 IH1 r2 IH2|r1 IH1]; intros s; simpl.
  - inversion 1.
  - inversion 1.
  - destruct (Ascii.eqb_spec c d) as [->|]; inversion 1. constructor.
  - destruct (Ascii.eqb_spec c d) as [->|]; inversion 1. by constructor.
  - destruct (nullable r1) eqn:Hn.
    + inversion 1 as [| | | | ? ? ? Hl | ? ? ? Hr | |]; subst.
      * inversion Hl as [| | |? ? s1 s2 H1 H2| | | |]; subst.
        apply (MCat r1 r2 (String c s1) s2); auto.
      * apply (MCat r1 r2 "" (String c s)); [by apply nullable_spec | auto].
    + inversion 1 as [| | |? ? s1 s2 H1 H2| | | |]; subst.
      apply (MCat r1 r2 (String c s1) s2); auto.
  - inversion 1; subst; [apply MAltL | apply MAltR]; auto.
  - inversion 1 as [| | |? ? s1 s2 H1 H2| | | |]; subst.
    apply (MStarCons r1 (String c s1) s2); auto.
Qed.

Lemma deriv_complete c r s : matches r (String c s) → matches (deriv c r) s.
Proof.
  intros Hm. remember (String c s) as t eqn:Ht. revert s Ht.
  induction Hm as [|d|d e Hne|r1 r2 s1 s2 H1 IH1 H2 IH2|r1 r2 t _ IH
                  |r1 r2 t _ IH| |r1 s1 s2 H1 IH1 H2 IH2]; intros s Ht; simpl.
  - done.
  - injection Ht as -> <-. rewrite Ascii.eqb_refl. constructor.
  - injection Ht as -> <-.
    destruct (Ascii.eqb_spec c d) as [->|]; [done | constructor].
  - apply str_app_eq_cons in Ht as [[-> ->]|(s1' & -> & ->)].
    + apply nullable_spec in H1 as ->. apply MAltR. by apply IH2.
    + destruct (nullable r1); [apply MAltL |]; constructor; auto.
  - apply MAltL. by apply IH.
  - apply MAltR. by apply IH.
  - done.
  - apply str_app_eq_cons in Ht as [[-> ->]|(s1' & -> & ->)].
    + by apply IH2.
    + constructor; auto.
Qed.

Lemma fullmatch_spec r s : fullmatch r s = true ↔ matches r s.
Proof.
  revert r. induction s as [|c s IH]; intros r; simpl.
  - apply nullable_spec.
  - rewrite IH. split; [apply deriv_sound | apply deriv_complete].
Qed.

(** [re.match] succeeds exactly when a prefix is in the language. *)
Lemma match_spec r s :
  match_ r s = true ↔ ∃ p q, s = p +:+ q ∧ matches r p.
Proof.
  revert r. induction s as [|c s IH]; intros r; simpl.
  - rewrite orb_false_r, nullable_spec. split.
    + intros Hm. by exists "", "".
    + intros (p & q & Heq & Hm). symmetry in Heq.
      by apply str_app_eq_nil in Heq as [-> _].
  - rewrite orb_true_iff, nullable_spec, IH. split.
    + intros [Hm|(p & q & -> & Hm)].
      * by exists "", (String c s).
      * exists (String c p), q. split; [done | by apply deriv_sound].
    + intros (p & q & Heq & Hm). symmetry in Heq.
      apply str_app_eq_cons in Heq as [[-> _]|(p' & -> & ->)]; [by left |].
      right. exists p', q. split; [done | by apply deriv_complete].
Qed.

Lemma star_notchr_spec c s : matches (Star (NotChr c)) s ↔ free_of c s.
Proof.
  split.
  - intros Hm. remember (Star (NotChr c)) as r eqn:Hr.
    induction Hm as [| | | | | | |r1 s1 s2 H1 _ _ IH2]; try done.
    injection Hr as ->. inversion H1; subst. simpl. auto.
  - induction s as [|d s IH]; simpl.
    + constructor.
    + intros [Hne Hs]. apply (MStarCons _ (String d "") s); auto.
      by constructor.
Qed.

Lemma plus_notchr_spec c s : matches (Plus (NotChr c)) s ↔ some_not c s.
Proof.
  unfold Plus, some_not. split.
  - inversion 1 as [| | |? ? s1 s2 H1 H2| | | |]; subst.
    inversion H1; subst. apply star_notchr_spec in H2. simpl. done.
  - intros [Hne Hs]. destruct s as [|d s]; [done |]. destruct Hs as [Hd Hs].
    apply (MCat _ _ (String d "") s); [by constructor |].
    by apply star_notchr_spec.
Qed.

End regex_facts.

(** ** The email check *)

Lemma email_pattern_spec p :
  Re.matches email_pattern p ↔
  ∃ loc dom tld, p = loc +:+ "@" +:+ dom +:+ "." +:+ tld ∧
    some_not "@" loc ∧ some_not "@" dom ∧ some_not "@" tld.
Proof.
  unfold email_pattern. split.
  - inversion 1 as [| | |? ? loc s1 Hloc H1| | | |]; subst.
    inversion H1 as [| | |? ? at_ s2 Hat H2| | | |]; subst.
    inversion H2 as [| | |? ? dom s3 Hdom H3| | | |]; subst.
    inversion H3 as [| | |? ? dot tld Hdot Htld| | | |]; subst.
    inversion Hat; subst. inversion Hdot; subst.
    exists loc, dom, tld. by rewrite <- !plus_notchr_spec.
  - intros (loc & dom & tld & -> & Hloc & Hdom & Htld).
    apply plus_notchr_spec in Hloc, Hdom, Htld.
    repeat (constructor; try done).
Qed.

(** The email check accepts exactly the strings of the stated shape. *)
Lemma _email_is_valid_spec email :
  _email_is_valid email = true ↔ email_format email.
Proof.
  unfold _email_is_valid, email_format.
  destruct (Re.match_ email_pattern email) eqn:Hm; cbn [negb].
  - apply match_spec in Hm as (p & rest & -> & Hp).
    apply email_pattern_spec in Hp as (loc & dom & tld & -> & H).
    split; [intros _ | done]. exists loc, dom, tld, rest.
    split; [|done]. by rewrite !str_app_assoc.
  - split; [done |]. intros (loc & dom & tld & rest & -> & H).
    assert (Re.match_ email_pattern
              (loc +:+ "@" +:+ dom +:+ "." +:+ tld +:+ rest) = true) as Hm';
      [|congruence].
    apply match_spec. exists (loc +:+ "@" +:+ dom +:+ "." +:+ tld), rest.
    split; [by rewrite !str_app_assoc |].
    apply email_pattern_spec. by exists loc, dom, tld.
Qed.

(** ** The monad *)

Section monad_facts.
Context {A B : Type}.
Implicit Types (m : M A) (f : A → M B).

Lemma bind_inr m f w st a st' :
  m w st = (inr a, st') → (m ≫= f) w st = f a w st'.
Proof. unfold mbind, M_bind. by intros ->. Qed.

Lemma bind_inl m f w st e st' :
  m w st = (inl e, st') → (m ≫= f) w st = (inl e, st').
Proof. unfold mbind, M_bind. by intros ->. Qed.

Lemma bind_eq m f w st :
  (m ≫= f) w st =
    match m w st with
    | (inl e, st') => (inl e, st')
    | (inr a, st') => f a w st'
    end.
Proof. reflexivity. Qed.

End monad_facts.

Lemma truthy_present v : Py.truthy v = true ↔ present v.
Proof.
  unfold present. destruct v as [[|c s]|]; simpl; split; try done.
  - intros (x & [= <-] & Hx). done.
  - intros _. by exists (String c s).
  - intros (x & [=] & _).
Qed.

(** ** The generic configuration check *)

Lemma generic_messages_distinct :
  NoDup ["Email address was not provided"; "ACME server was not provided";
         "Invalid email address"; "Invalid ACME server"].
Proof. apply (bool_decide_unpack _). by vm_compute. Qed.

Lemma url_parts_truthy (url : ParseResult) :
  forallb Py.truthy [Some (scheme url); Some (netloc url)] = true
  ↔ scheme url ≠ "" ∧ netloc url ≠ "".
Proof.
  simpl. destruct (scheme url), (netloc url); simpl; split; try done;
    intros [? ?]; done.
Qed.

(** The checks of [validate_generic_acme_config], run on a state. *)
Lemma validate_generic_acme_config_eq (w : World) (st : State) :
  let blocked msg := (inr false, status_set (BlockedStatus msg) st) in
  validate_generic_acme_config w st =
    if negb (Py.truthy (config w !! "email"))
    then blocked "Email address was not provided"
    else if negb (Py.truthy (config w !! "server"))
    then blocked "ACME server was not provided"
    else if negb (_email_is_valid (default "" (config w !! "email")))
    then blocked "Invalid email address"
    else match urlparse w (default "" (config w !! "server")) with
         | inl e => (inl e, st)
         | inr url =>
             if negb (forallb Py.truthy [Some (scheme url); Some (netloc url)])
             then blocked "Invalid ACME server"
             else (inr true, st)
         end.
Proof.
  cbv zeta.
  unfold validate_generic_acme_config, _email, _server, _server_is_valid.
  cbv [mbind M_bind mret M_ret ask set_status raise].
  destruct (Py.truthy (config w !! "email")); [|reflexivity].
  cbn [negb]; cbv beta iota.
  destruct (Py.truthy (config w !! "server")); [|reflexivity].
  cbn [negb]; cbv beta iota.
  destruct (_email_is_valid _); [|reflexivity].
  cbn [negb]; cbv beta iota.
  destruct (urlparse w _) as [e|url]; [reflexivity |].
  destruct (forallb _ _); reflexivity.
Qed.

(** C3, where the code departs from it.  The fourth check does not always
    end in a [Blocked] status: when the email and the server are set and the
    email has the shape of the pattern, but [urlparse] raises on the server,
    [validate_generic_acme_config] raises this exception.  It sets no status
    and returns neither [True] nor [False]. *)
Theorem malformed_server_raises_in_validation (w : World) (st : State)
    (e : Exn) :
  present (config w !! "email") →
  present (config w !! "server") →
  email_format (default "" (config w !! "email")) →
  urlparse w (default "" (config w !! "server")) = inl e →
  validate_generic_acme_config w st = (inl e, st).
Proof.
  intros Hemail%truthy_present Hserver%truthy_present Hformat Hparse.
  apply _email_is_valid_spec in Hformat.
  rewrite validate_generic_acme_config_eq. cbv zeta.
  by rewrite Hemail, Hserver, Hformat, Hparse.
Qed.

(** C3 on a configuration whose server is [http://[]. *)
Lemma malformed_server_raises_in_validation_witness :
  validate_generic_acme_config
    (Sample.world Sample.malformed_server_config true true "example.com"
       Sample.lego_fails) Sample.start
  = (inl (ValueError "Invalid IPv6 URL"), Sample.start).
Proof.
  apply malformed_server_raises_in_validation.
  - eexists. split; [vm_compute; reflexivity | done].
  - eexists. split; [vm_compute; reflexivity | done].
  - apply _email_is_valid_spec. vm_compute. reflexivity.
  - vm_compute. reflexivity.
Defined.

(** ** The provider check *)

Lemma elem_of_unset_keys required d k :
  k ∈ unset_keys required d ↔
  k ∈ required ∧ Py.truthy (mjoin (d !! k)) = false.
Proof.
  unfold unset_keys. rewrite !list_elem_of_In, filter_In.
  by rewrite negb_true_iff.
Qed.

Lemma missing_config_total required (d : gmap string (option string)) :
  (∀ k, k ∈ required → is_Some (d !! k)) →
  Gandi.missing_config required d = inr (unset_keys required d).
Proof.
  induction required as [|k required IH]; intros Hdom; simpl; [done |].
  destruct (Hdom k) as [v Hv]; [by left |]. rewrite Hv. simpl.
  rewrite IH by (intros k' Hk'; apply Hdom; by right). done.
Qed.

Lemma join_contains sep l k : k ∈ l → Py.contains (Py.join sep l) k.
Proof.
  induction l as [|x l IH]; [by intros ?%not_elem_of_nil |].
  intros [->|Hk]%elem_of_cons.
  - destruct l; [apply (contains_app_r "") | apply contains_app_l].
  - destruct l as [|y l]; [by apply not_elem_of_nil in Hk |].
    rewrite join_cons by done. do 2 apply contains_prepend. by apply IH.
Qed.

(** C4.  When every required key can be looked up, the provider check
    succeeds, leaving the state untouched, exactly when no required key is
    unset; otherwise it sets one [Blocked] status whose message is the fixed
    introduction followed by all unset required keys, joined by a comma, so
    that each of them occurs in the message. *)
Theorem validate_required_config_lists_every_missing_key
    (required : list string) (d : gmap string (option string))
    (w : World) (st : State) :
  (∀ k, k ∈ required → is_Some (d !! k)) →
  let missing := unset_keys required d in
  let r := Gandi.validate_required_config required d w st in
  (r = (inr true, st) ↔ missing = []) ∧
  (r.1 = inr true ↔ missing = []) ∧
  (missing ≠ [] →
     ∃ msg, r = (inr false, status_set (BlockedStatus msg) st) ∧
       msg = "The following config options must be set: "
             +:+ Py.join ", " missing ∧
       ∀ k, k ∈ required → Py.truthy (mjoin (d !! k)) = false →
            Py.contains msg k).
Proof.
  intros Hdom missing r. unfold r, Gandi.validate_required_config.
  rewrite (missing_config_total _ _ Hdom). fold missing.
  assert (Hin : ∀ k, k ∈ required → Py.truthy (mjoin (d !! k)) = false →
                     k ∈ missing).
  { intros k ? ?. by apply elem_of_unset_keys. }
  destruct missing as [|k0 missing'] eqn:Hm.
  - split_and!; [done | done | by intros []].
  - split_and!; [split; intros [=] | split; intros [=] |].
    intros _. eexists. split_and!; [reflexivity | reflexivity |].
    intros k Hk Hunset. apply contains_prepend, join_contains. auto.
Qed.

(** C4 on the configuration of the unit test without an API key. *)
Lemma validate_required_config_lists_every_missing_key_witness :
  ∃ msg,
    Gandi.validate_required_config Gandi.REQUIRED_CONFIG
      (Gandi.plugin_config Sample.no_api_key_config)
      (Sample.world Sample.no_api_key_config true true "example.com"
         Sample.lego_fails) Sample.start
    = (inr false, status_set (BlockedStatus msg) Sample.start) ∧
    msg = "The following config options must be set: GANDIV5_API_KEY".
Proof.
  destruct (validate_required_config_lists_every_missing_key
    Gandi.REQUIRED_CONFIG (Gandi.plugin_config Sample.no_api_key_config)
    (Sample.world Sample.no_api_key_config true true "example.com"
       Sample.lego_fails) Sample.start) as (_ & _ & H).
  - intros k ->%list_elem_of_singleton. vm_compute. by eexists.
  - destruct H as (msg & H1 & H2 & _); [by vm_compute |].
    exists msg. split; [exact H1 | rewrite H2; by vm_compute].
Defined.

Lemma set_if_truthy_lookup_ne key v (d : gmap string (option string)) k :
  key ≠ k → Gandi.set_if_truthy key v d !! k = d !! k.
Proof.
  intros Hne. unfold Gandi.set_if_truthy.
  destruct (Py.truthy v); [by rewrite lookup_insert_ne | done].
Qed.

Lemma plugin_config_api_key (cfg : gmap string string) :
  Gandi.plugin_config cfg !! "GANDIV5_API_KEY" = Some (cfg !! "gandi_api_key").
Proof.
  unfold Gandi.plugin_config. cbv zeta.
  rewrite !set_if_truthy_lookup_ne by done.
  by rewrite lookup_singleton_eq.
Qed.

Lemma _validate_gandi_livedns_config_eq (w : World) (st : State) :
  Gandi._validate_gandi_livedns_config w st =
    if Py.truthy (config w !! "gandi_api_key") then (inr true, st)
    else (inr false,
          status_set
            (BlockedStatus
               "The following config options must be set: GANDIV5_API_KEY") st).
Proof.
  unfold Gandi._validate_gandi_livedns_config.
  rewrite (bind_inr ask _ w st w st) by done.
  unfold Gandi.validate_required_config, Gandi.REQUIRED_CONFIG.
  cbn [Gandi.missing_config]. rewrite plugin_config_api_key.
  unfold Gandi._gandi_api_key. by destruct (Py.truthy _).
Qed.

(** C10.  Whatever the configuration, the environment mapping of the Gandi
    plugin has the key [GANDIV5_API_KEY], bound to the possibly unset value
    of [gandi_api_key]; so every required key can be looked up, the check
    of the required keys always returns (it raises no [KeyError]), and with
    an unset API key it blocks. *)
Theorem gandi_plugin_config_has_required_keys (w : World) (st : State) :
  Gandi.plugin_config (config w) !! "GANDIV5_API_KEY"
    = Some (config w !! "gandi_api_key") ∧
  (∀ k, k ∈ Gandi.REQUIRED_CONFIG →
        is_Some (Gandi.plugin_config (config w) !! k)) ∧
  (∃ ok st', Gandi._validate_gandi_livedns_config w st = (inr ok, st')) ∧
  (¬ present (config w !! "gandi_api_key") →
     Gandi._validate_gandi_livedns_config w st =
       (inr false,
        status_set
          (BlockedStatus
             "The following config options must be set: GANDIV5_API_KEY") st)).
Proof.
  split_and!.
  - apply plugin_config_api_key.
  - intros k ->%list_elem_of_singleton. rewrite plugin_config_api_key. eauto.
  - rewrite _validate_gandi_livedns_config_eq.
    destruct (Py.truthy _); eauto.
  - intros Hunset. rewrite _validate_gandi_livedns_config_eq.
    destruct (Py.truthy _) eqn:Ht; [|done].
    by apply truthy_present in Ht.
Qed.

(** C10 on the configuration of the unit test without an API key. *)
Lemma gandi_plugin_config_has_required_keys_witness :
  Gandi._validate_gandi_livedns_config
    (Sample.world Sample.no_api_key_config true true "example.com"
       Sample.lego_fails) Sample.start
  = (inr false,
     status_set
       (BlockedStatus
          "The following config options must be set: GANDIV5_API_KEY")
       Sample.start).
Proof.
  apply (gandi_plugin_config_has_required_keys
    (Sample.world Sample.no_api_key_config true true "example.com"
       Sample.lego_fails) Sample.start).
  intros (x & Hx & _). by vm_compute in Hx.
Defined.

(** ** The hook of the Gandi charm *)

(** The hook runs the provider check, then the generic check, and sets
    [Active] when both pass; it raises when the generic check does. *)
Lemma gandi_on_config_changed_eq (event : Event) (w : World) (st : State) :
  Gandi.on_config_changed event w st =
    if negb (Py.truthy (config w !! "gandi_api_key"))
    then (inr (), (Gandi._validate_gandi_livedns_config w st).2)
    else match validate_generic_acme_config w st with
         | (inl e, st') => (inl e, st')
         | (inr true, st') => (inr (), status_set (ActiveStatus "") st')
         | (inr false, st') => (inr (), st')
         end.
Proof.
  unfold Gandi.on_config_changed, mbind, M_bind.
  rewrite _validate_gandi_livedns_config_eq.
  destruct (Py.truthy (config w !! "gandi_api_key")); [|done].
  cbn [negb].
  destruct (validate_generic_acme_config w st) as [[e|[]] st']; reflexivity.
Qed.

(** ** Computations only add calls *)

Section appending_facts.
Context {A B : Type}.

Lemma appending_ret (a : A) : appending (mret a).
Proof. by intros w st. Qed.

Lemma appending_raise (e : Exn) : appending (raise (A := A) e).
Proof. by intros w st. Qed.

Lemma appending_bind (m : M A) (f : A → M B) :
  appending m → (∀ a, appending (f a)) → appending (m ≫= f).
Proof.
  intros Hm Hf w st. unfold mbind, M_bind.
  specialize (Hm w st). destruct (m w st) as [[e|a] st']; [done |].
  etrans; [exact Hm | apply Hf].
Qed.

Lemma appending_or_raise (e : Exn) (o : option A) : appending (or_raise e o).
Proof. destruct o; [apply appending_ret | apply appending_raise]. Qed.

End appending_facts.

Lemma appending_ask : appending ask.
Proof. by intros w st. Qed.

Lemma appending_get_status : appending get_status.
Proof. by intros w st. Qed.

Lemma appending_record c : appending (record c).
Proof. intros w st. by apply prefix_app_r. Qed.

Lemma appending_set_status s : appending (set_status s).
Proof. intros w st. by apply prefix_app_r. Qed.

Lemma appending_container_push path make_dirs source :
  appending (container_push path make_dirs source).
Proof. intros w st. by apply prefix_app_r. Qed.

Lemma appending_container_pull path : appending (container_pull path).
Proof.
  intros w st. unfold container_pull.
  destruct (files st !! path); by apply prefix_app_r.
Qed.

Lemma appending_container_exec cmd timeout working_dir environment :
  appending (container_exec cmd timeout working_dir environment).
Proof.
  intros w st. unfold container_exec.
  destruct (lego w cmd environment (files st)). by apply prefix_app_r.
Qed.

Create HintDb appending discriminated.

#[local] Hint Resolve appending_ret appending_raise appending_or_raise
  appending_ask appending_get_status appending_record appending_set_status
  appending_container_push appending_container_pull appending_container_exec
  : appending.

(** Break a computation into its steps, each of which only adds calls. *)
Ltac appending_steps :=
  repeat match goal with
    | |- appending (mbind _ _) => apply appending_bind; [|intros ?]
    | |- appending (if ?b then _ else _) => destruct b
    | |- appending (match ?x with _ => _ end) => destruct x
    | |- appending _ => solve [auto with appending]
    end.

Lemma appending__get_subject_from_csr csr :
  appending (_get_subject_from_csr csr).
Proof. unfold _get_subject_from_csr. appending_steps. Qed.

Lemma appending__execute_lego_cmd `{AcmeClient} : appending _execute_lego_cmd.
Proof. unfold _execute_lego_cmd, _cmd, _email, _server. appending_steps. Qed.

Lemma appending__pull_certificates_from_workload subject :
  appending (_pull_certificates_from_workload subject).
Proof. unfold _pull_certificates_from_workload. appending_steps. Qed.

#[local] Hint Resolve appending__get_subject_from_csr
  appending__execute_lego_cmd appending__pull_certificates_from_workload
  : appending.

(** ** The certificate-creation request handler *)

(** Run the next step of a computation whose outcome is known. *)
Ltac bind_step :=
  erewrite bind_inr by (eassumption || reflexivity); cbv beta.

(** Take the branch decided by the equation [H]. *)
Ltac branch H := rewrite H; cbn [negb]; cbv beta iota.

(** [_cmd] with an email and a server in the configuration. *)
Lemma _cmd_eq `{AcmeClient} (w : World) (st : State) :
  present (config w !! "email") → present (config w !! "server") →
  _cmd w st =
    (inr ["lego"; "--email"; default "" (config w !! "email"); "--accept-tos";
          "--csr"; _csr_path; "--server"; default "" (config w !! "server");
          "--dns"; _plugin; "run"], st).
Proof.
  intros He%truthy_present Hs%truthy_present. unfold _cmd, _email, _server.
  bind_step. branch He. bind_step. branch Hs. done.
Qed.

(** [_execute_lego_cmd] runs [lego] once and tells whether it succeeded;
    an exception other than [ExecError] goes through. *)
Lemma _execute_lego_cmd_eq `{AcmeClient} (w : World) (st : State) cmd :
  _cmd w st = (inr cmd, st) →
  _execute_lego_cmd w st =
    let env := _plugin_config (config w) in
    let ran := lego w cmd env (files st) in
    (match ran.1 with
     | WaitOutput _ _ => inr true
     | ExecError _ _ => inr false
     | WaitRaises e => inl e
     end,
     after st (status st) ran.2 [Exec cmd 300 "/tmp" env]).
Proof.
  intros Hcmd. unfold _execute_lego_cmd. do 2 bind_step.
  unfold mbind, M_bind, container_exec, after. cbv zeta.
  destruct (lego w cmd _ (files st)) as [[] ?]; reflexivity.
Qed.

Section handler.
Context `{charm : AcmeClient}.
Variables (event : Event) (w : World) (st st1 : State).


End handler.


(** C9.  On a unit that is not the leader, once the hook has left an
    [Active] status, the handler returns in the state the hook left: no
    status change, no push, no run, no publication, no deferral. *)
Theorem not_leader_stops_silently `{AcmeClient} (event : Event) (w : World)
    (st st1 : State) :
  _on_config_changed event w st = (inr (), st1) →
  is_active (status st1) = true →
  is_leader w = false →
  _on_certificate_creation_request event w st = (inr (), st1).
Proof.
  intros Hhook Hactive Hleader. unfold _on_certificate_creation_request.
  do 2 bind_step. branch Hactive. bind_step. branch Hleader. done.
Qed.

(** C8, as the handler does it.  On the leader, once the hook has left an
    [Active] status, with an unreachable container, the handler sets
    [Waiting] and defers the event; these are its only two calls, so there
    is no [Blocked] status, no run and no publication. *)
Theorem container_unreachable_waits_and_defers `{AcmeClient} (event : Event)
    (w : World) (st st1 : State) :
  _on_config_changed event w st = (inr (), st1) →
  is_active (status st1) = true →
  is_leader w = true →
  can_connect w = false →
  let waiting := WaitingStatus "Waiting for container to be ready" in
  _on_certificate_creation_request event w st =
    (inr (), after st1 waiting (files st1) [SetStatus waiting; Defer event]).
Proof.
  intros Hhook Hactive Hleader Hconnect. cbv zeta.
  unfold _on_certificate_creation_request.
  do 2 bind_step. branch Hactive. bind_step. branch Hleader. branch Hconnect.
  bind_step. unfold defer, record, after. simpl. by rewrite <- app_assoc.
Qed.

(** C1.  On the leader, with a valid configuration and a reachable
    container, a request whose CSR subject has more than 64 characters sets
    a [Blocked] status whose message contains the subject; this is the only
    call the handler adds, so [lego] is not run and the event is not
    deferred. *)
Theorem long_subject_blocks `{AcmeClient} (event : Event) (w : World)
    (st st1 : State) (subject : string) :
  _on_config_changed event w st = (inr (), st1) →
  is_active (status st1) = true →
  is_leader w = true →
  can_connect w = true →
  _get_subject_from_csr (certificate_signing_request event) w st1
    = (inr subject, st1) →
  (64 < String.length subject)%nat →
  ∃ msg,
    _on_certificate_creation_request event w st =
      (inr (), status_set (BlockedStatus msg) st1) ∧
    msg = "Subject is too long (> 64 characters): " +:+ subject ∧
    Py.contains msg subject.
Proof.
  intros Hhook Hactive Hleader Hconnect Hsubject Hlong.
  apply Nat.ltb_lt in Hlong. eexists. split_and!; [|reflexivity|].
  - unfold _on_certificate_creation_request.
    do 2 bind_step. branch Hactive. bind_step. branch Hleader.
    branch Hconnect. bind_step. branch Hlong. done.
  - apply contains_app_r.
Qed.

(** ** Python indexing *)

Lemma index_first {A} (l : list A) : Py.index l 0 = head l.
Proof. unfold Py.index. simpl. by rewrite head_lookup. Qed.

Lemma index_last {A} (l : list A) : Py.index l (-1) = last l.
Proof.
  unfold Py.index. cbn [Z.leb Z.compare]. rewrite last_lookup.
  destruct l as [|x l]; [done |].
  replace (0 <=? Z.of_nat (length (x :: l)) + -1) with true
    by (symmetry; apply Z.leb_le; simpl length; lia).
  f_equal. simpl length. lia.
Qed.

(** ** The handler, from the push of the CSR on *)

Section execution.
Context `{charm : AcmeClient}.
Variables (event : Event) (w : World) (st st1 : State) (subject : string).

Hypothesis Hhook : _on_config_changed event w st = (inr (), st1).
Hypothesis Hactive : is_active (status st1) = true.
Hypothesis Hleader : is_leader w = true.
Hypothesis Hconnect : can_connect w = true.
Hypothesis Hsubject :
_get_subject_from_csr (certificate_signing_request event) w st1
  = (inr subject, st1).
Hypothesis Hshort : (String.length subject ≤ 64)%nat.
Hypothesis Hemail : present (config w !! "email").
Hypothesis Hserver : present (config w !! "server").

(** Run the handler up to the return of [_execute_lego_cmd]. *)
Ltac to_execution :=
unfold _on_certificate_creation_request;
do 2 bind_step; branch Hactive; bind_step; branch Hleader;
branch Hconnect; bind_step;
apply Nat.leb_le in Hshort; rewrite Nat.leb_antisym in Hshort;
apply negb_true_iff in Hshort; branch Hshort;
unfold _push_csr_to_workload; do 2 bind_step;
rewrite bind_eq;
rewrite (_execute_lego_cmd_eq _ _ (lego_command w))
  by (apply _cmd_eq; [exact Hemail | exact Hserver]);
cbv beta zeta; cbn [files status calls set_status container_push snd];
fold (lego_command w); fold (lego_run event w st1).

Lemma execution_failure code stderr :
(lego_run event w st1).1 = ExecError code stderr →
_on_certificate_creation_request event w st =
  (inr (),
   after st1 execution_failed (lego_run event w st1).2
     (execution_calls event w ++ [SetStatus execution_failed])).
Proof using All.
intros Hran. to_execution. rewrite Hran. cbn [negb]. cbv beta iota.
unfold set_status, after, execution_calls, execution_failed.
cbn [files status calls]. by rewrite <- !app_assoc.
Qed.

Lemma execution_raised e :
(lego_run event w st1).1 = WaitRaises e →
_on_certificate_creation_request event w st =
  (inl e,
   after st1 (MaintenanceStatus "Executing lego command")
     (lego_run event w st1).2 (execution_calls event w)).
Proof using All.
intros Hran. to_execution. rewrite Hran. cbv beta iota.
unfold after, execution_calls. cbn [files status calls].
by rewrite <- !app_assoc.
Qed.

Lemma execution_order :
∃ rest,
  calls (_on_certificate_creation_request event w st).2
    = calls st1 ++ execution_calls event w ++ rest.
Proof using All.
destruct ((lego_run event w st1).1) as [out err|code stderr|e] eqn:Hran;
  [| |erewrite execution_raised by done; exists []; unfold after;
      cbn [calls snd]; by rewrite app_nil_r].
- to_execution. rewrite Hran. cbn [negb]. cbv beta iota.
  match goal with
  | |- ∃ rest, calls (?m w ?s).2 = _ =>
      assert (appending m) as Hm;
        [unfold set_relation_certificate; appending_steps
        |destruct (Hm w s) as [rest Hrest]]
  end.
  exists rest. rewrite Hrest. unfold after, execution_calls. cbn [calls].
  by rewrite <- !app_assoc.
- erewrite execution_failure by done. exists [SetStatus execution_failed].
  unfold after. cbn [calls snd]. done.
Qed.

Lemma execution_success out err content :
(lego_run event w st1).1 = WaitOutput out err →
(lego_run event w st1).2 !! chain_path subject = Some content →
let blocks := Py.split blank_line content in
∃ leaf ca,
  head blocks = Some leaf ∧ last blocks = Some ca ∧
  _on_certificate_creation_request event w st =
    (inr (),
     after st1 (ActiveStatus "") (lego_run event w st1).2
       (execution_calls event w ++
        [Pull (chain_path subject);
         SetRelationCertificate leaf (certificate_signing_request event) ca
           (reverse blocks) (relation_id event);
         SetStatus (ActiveStatus "")])).
Proof using All.
intros Hran Hfile blocks.
destruct (head_is_Some blocks) as [_ [leaf Hleaf]];
  [apply split_nonempty |].
destruct (last_is_Some blocks) as [_ [ca Hca]]; [apply split_nonempty |].
exists leaf, ca. split_and!; [done | done |].
to_execution. rewrite Hran. cbn [negb]. cbv beta iota.
unfold _pull_certificates_from_workload.
erewrite bind_inr; cycle 1.
{ erewrite bind_inr; [reflexivity |].
  unfold container_pull, after. cbn [files].
  fold (chain_path subject). by rewrite Hfile. }
cbv beta. fold blank_line. fold blocks.
rewrite index_first, index_last, Hleaf, Hca.
do 2 bind_step.
unfold set_relation_certificate, record, set_status, mbind, M_bind, after,
  execution_calls.
cbn [files status calls]. by rewrite <- !app_assoc.
Qed.

End execution.

(** C5, as the handler does it.  On the path that reaches the execution
    (the hook leaves an [Active] status, the unit is the leader, the
    container is reachable, the subject has at most 64 characters), the
    handler pushes the CSR to the working path, then sets [Maintenance],
    then runs the external client, in this order; and when the client exits
    with a failure ([ExecError]) the handler sets [Blocked] and returns, with
    no call after it: nothing is pulled or published. *)
Theorem push_then_maintenance_then_run `{AcmeClient} (event : Event)
    (w : World) (st st1 : State) (subject : string) :
  _on_config_changed event w st = (inr (), st1) →
  is_active (status st1) = true →
  is_leader w = true →
  can_connect w = true →
  _get_subject_from_csr (certificate_signing_request event) w st1
    = (inr subject, st1) →
  (String.length subject ≤ 64)%nat →
  present (config w !! "email") →
  present (config w !! "server") →
  let final := _on_certificate_creation_request event w st in
  (∃ rest, calls final.2 = calls st1 ++ execution_calls event w ++ rest) ∧
  push_maintenance_run (execution_calls event w) ∧
  (∀ code stderr, (lego_run event w st1).1 = ExecError code stderr →
     final =
       (inr (),
        after st1 execution_failed (lego_run event w st1).2
          (execution_calls event w ++ [SetStatus execution_failed]))).
Proof.
  intros. split_and!.
  - by eapply execution_order.
  - by split.
  - intros code stderr Hran. by eapply execution_failure.
Qed.

(** C2.  When the handler publishes, the chain pulled is the list [blocks]
    of the blocks of the file, leaf first; the certificate published is the
    first block, the ca is the last block and the chain is the list
    reversed, so that its first element is the ca and its last element, at
    index [N - 1], is the leaf. *)
Theorem published_chain_is_reversed `{AcmeClient} (event : Event)
    (w : World) (st st1 : State) (subject out err content : string) :
  _on_config_changed event w st = (inr (), st1) →
  is_active (status st1) = true →
  is_leader w = true →
  can_connect w = true →
  _get_subject_from_csr (certificate_signing_request event) w st1
    = (inr subject, st1) →
  (String.length subject ≤ 64)%nat →
  present (config w !! "email") →
  present (config w !! "server") →
  (lego_run event w st1).1 = WaitOutput out err →
  (lego_run event w st1).2 !! chain_path subject = Some content →
  let blocks := Py.split blank_line content in
  let chain := reverse blocks in
  ∃ leaf ca,
    _on_certificate_creation_request event w st =
      (inr (),
       after st1 (ActiveStatus "") (lego_run event w st1).2
         (execution_calls event w ++
          [Pull (chain_path subject);
           SetRelationCertificate leaf (certificate_signing_request event) ca
             chain (relation_id event);
           SetStatus (ActiveStatus "")])) ∧
    blocks !! 0%nat = Some leaf ∧
    last blocks = Some ca ∧
    chain !! 0%nat = Some ca ∧
    chain !! (length blocks - 1)%nat = Some leaf.
Proof.
  intros Hhook Hactive Hleader Hconnect Hsubject Hshort Hemail Hserver
    Hran Hfile blocks chain.
  destruct (execution_success event w st st1 subject Hhook Hactive Hleader
              Hconnect Hsubject Hshort Hemail Hserver out err content
              Hran Hfile) as (leaf & ca & Hleaf & Hca & Hfinal).
  fold blocks in Hleaf, Hca, Hfinal. exists leaf, ca.
  split_and!; [exact Hfinal | by rewrite <- head_lookup | exact Hca | |].
  - unfold chain. by rewrite <- head_lookup, head_reverse.
  - unfold chain. rewrite <- Hleaf, <- last_reverse, last_lookup.
    rewrite length_reverse. f_equal. lia.
Qed.

(** ** The certificate retriever *)

(** C6, as the retriever does it.  The retriever reads the file
    [<certs_path><subject>.crt], cuts its contents at every empty line and
    returns all the blocks, none dropped: there is at least one block, the
    blocks joined by empty lines are the contents of the file, and no block
    contains an empty line. *)
Theorem pull_returns_every_block (w : World) (st : State)
    (subject content : string) :
  files st !! chain_path subject = Some content →
  let blocks := Py.split blank_line content in
  _pull_certificates_from_workload subject w st =
    (inr blocks, after st (status st) (files st) [Pull (chain_path subject)]) ∧
  chain_path subject = "/tmp/.lego/certificates/" +:+ subject +:+ ".crt" ∧
  blocks ≠ [] ∧
  Py.join blank_line blocks = content ∧
  (∀ block, block ∈ blocks → ¬ Py.contains block blank_line).
Proof.
  intros Hfile blocks. split_and!; [| | | |by apply split_no_sep].
  - unfold _pull_certificates_from_workload.
    erewrite bind_inr; [reflexivity |].
    unfold container_pull, after. fold (chain_path subject). by rewrite Hfile.
  - done.
  - apply split_nonempty.
  - by apply join_split.
Qed.

(** ** The theorems on sample requests to the Gandi charm *)

(** Discharge a hypothesis on a sample by evaluation. *)
Ltac by_evaluation :=
  lazymatch goal with
  | |- present _ => eexists; split; [vm_compute; reflexivity | done]
  | |- (_ ≤ _)%nat => apply Nat.leb_le; vm_compute; reflexivity
  | |- (_ < _)%nat => apply Nat.ltb_lt; vm_compute; reflexivity
  | |- _ => vm_compute; reflexivity
  end.


(** C9 on a request received by a unit that is not the leader. *)
Lemma not_leader_stops_silently_witness :
  let w := Sample.world Sample.valid_config false true "example.com"
             Sample.lego_fails in
  _on_certificate_creation_request Sample.request w Sample.start =
    (inr (), status_set (ActiveStatus "") Sample.start).
Proof.
  intros w.
  apply (not_leader_stops_silently Sample.request w Sample.start);
    by_evaluation.
Defined.

(** C8 on a request received while the container cannot be reached. *)
Lemma container_unreachable_waits_and_defers_witness :
  let w := Sample.world Sample.valid_config true false "example.com"
             Sample.lego_fails in
  let st1 := status_set (ActiveStatus "") Sample.start in
  let waiting := WaitingStatus "Waiting for container to be ready" in
  _on_certificate_creation_request Sample.request w Sample.start =
    (inr (),
     after st1 waiting (files st1) [SetStatus waiting; Defer Sample.request]).
Proof.
  intros w st1.
  apply (container_unreachable_waits_and_defers Sample.request w Sample.start
           st1); by_evaluation.
Defined.

(** C1 on a request for a subject of 65 characters. *)
Lemma long_subject_blocks_witness :
  let w := Sample.world Sample.valid_config true true Sample.long_subject
             (Sample.lego_writes Sample.long_subject Sample.chain3) in
  let st1 := status_set (ActiveStatus "") Sample.start in
  ∃ msg,
    _on_certificate_creation_request Sample.request w Sample.start =
      (inr (), status_set (BlockedStatus msg) st1) ∧
    msg = "Subject is too long (> 64 characters): " +:+ Sample.long_subject ∧
    Py.contains msg Sample.long_subject.
Proof.
  intros w st1.
  apply (long_subject_blocks Sample.request w Sample.start st1
           Sample.long_subject); by_evaluation.
Defined.

(** C5 on a request for which [lego] exits with status 1. *)
Lemma push_then_maintenance_then_run_witness :
  let w := Sample.world Sample.valid_config true true "example.com"
             Sample.lego_fails in
  let st1 := status_set (ActiveStatus "") Sample.start in
  _on_certificate_creation_request Sample.request w Sample.start =
    (inr (),
     after st1 execution_failed (lego_run Sample.request w st1).2
       (execution_calls Sample.request w ++ [SetStatus execution_failed])).
Proof.
  intros w st1.
  destruct (push_then_maintenance_then_run Sample.request w Sample.start st1
              "example.com") as (_ & _ & Hfailed); [by_evaluation.. |].
  apply (Hfailed 1 "lego: not found"). by_evaluation.
Defined.

(** C2 on a request for which [lego] writes a chain of three blocks. *)
Lemma published_chain_is_reversed_witness :
  let w := Sample.world Sample.valid_config true true "example.com"
             (Sample.lego_writes "example.com" Sample.chain3) in
  let st1 := status_set (ActiveStatus "") Sample.start in
  ∃ leaf ca,
    _on_certificate_creation_request Sample.request w Sample.start =
      (inr (),
       after st1 (ActiveStatus "") (lego_run Sample.request w st1).2
         (execution_calls Sample.request w ++
          [Pull (chain_path "example.com");
           SetRelationCertificate leaf
             (certificate_signing_request Sample.request) ca
             ["ROOT"; "INTERMEDIATE"; "LEAF"] (relation_id Sample.request);
           SetStatus (ActiveStatus "")])) ∧
    leaf = "LEAF" ∧ ca = "ROOT".
Proof.
  intros w st1.
  destruct (published_chain_is_reversed Sample.request w Sample.start st1
              "example.com" "" "" Sample.chain3)
    as (leaf & ca & Hfinal & Hleaf & Hca & _); [by_evaluation.. |].
  exists leaf, ca. split_and!.
  - exact Hfinal.
  - vm_compute in Hleaf. congruence.
  - vm_compute in Hca. congruence.
Defined.

(** C6 on a chain of three blocks. *)
Lemma pull_returns_every_block_witness :
  let st := {| status := MaintenanceStatus "Executing lego command";
               files := {[ chain_path "example.com" := Sample.chain3 ]};
               calls := [] |} in
  let w := Sample.world Sample.valid_config true true "example.com"
             Sample.lego_fails in
  (_pull_certificates_from_workload "example.com" w st).1
    = inr ["LEAF"; "INTERMEDIATE"; "ROOT"].
Proof.
  intros st w.
  destruct (pull_returns_every_block w st "example.com" Sample.chain3)
    as (Hpull & _); [by_evaluation |].
  rewrite Hpull. by_evaluation.
Defined.

(** ** Where the handler and the retriever differ from the specification *)

(** C5 as stated fails, twice.  On a request that reaches the execution, the
    CSR is pushed before [Maintenance] is set: no [Maintenance] status
    precedes the push.  And not every failure of the execution ends in
    [Blocked]: when lego does not end within the timeout, the exception goes
    through [_execute_lego_cmd], the handler raises it and the status stays
    [Maintenance]. *)
Lemma maintenance_before_push_counterexample :
  let w := Sample.world Sample.valid_config true true "example.com"
             Sample.lego_fails in
  let final := _on_certificate_creation_request Sample.request w Sample.start in
  let w' := Sample.world Sample.valid_config true true "example.com"
              Sample.lego_times_out in
  let final' :=
    _on_certificate_creation_request Sample.request w' Sample.start in
  (calls final.2 =
     [SetStatus (ActiveStatus "");
      Push "/tmp/csr.pem" true (certificate_signing_request Sample.request);
      SetStatus (MaintenanceStatus "Executing lego command");
      Exec (lego_command w) 300 "/tmp"
        (Gandi.plugin_config Sample.valid_config);
      SetStatus execution_failed] ∧
   ¬ maintenance_push_run (calls final.2)) ∧
  (final'.1 = inl TimeoutError ∧
   status final'.2 = MaintenanceStatus "Executing lego command" ∧
   ¬ stops_blocked final').
Proof.
  intros w final w' final'. split_and!.
  - by_evaluation.
  - intros [Horder _]. vm_compute in Horder. discriminate.
  - by_evaluation.
  - by_evaluation.
  - intros [Hreturns _]. vm_compute in Hreturns. discriminate.
Qed.

(** C8 as stated fails.  With an unreachable container, a unit that is not
    the leader returns without setting [Waiting] and without deferring; and
    on the leader a request that arrives while the configuration is invalid
    is deferred with the [Blocked] status of the configuration check, not
    with [Waiting]. *)
Lemma unreachable_container_counterexample :
  let follower := Sample.world Sample.valid_config false false "example.com"
                    Sample.lego_fails in
  let final :=
    _on_certificate_creation_request Sample.request follower Sample.start in
  let misconfigured :=
    Sample.world Sample.invalid_email_config true false "example.com"
      Sample.lego_fails in
  let final' :=
    _on_certificate_creation_request Sample.request misconfigured
      Sample.start in
  (final = (inr (), status_set (ActiveStatus "") Sample.start) ∧
   ¬ waits_and_defers Sample.request final) ∧
  (final' =
     (inr (),
      after Sample.start (BlockedStatus "Invalid email address") ∅
        [SetStatus (BlockedStatus "Invalid email address");
         Defer Sample.request]) ∧
   ¬ waits_and_defers Sample.request final').
Proof.
  intros follower final misconfigured final'.
  assert (Hfinal : final = (inr (), status_set (ActiveStatus "") Sample.start))
    by by_evaluation.
  assert (Hfinal' : final' =
     (inr (),
      after Sample.start (BlockedStatus "Invalid email address") ∅
        [SetStatus (BlockedStatus "Invalid email address");
         Defer Sample.request])) by by_evaluation.
  split_and!; [done | | done |].
  - rewrite Hfinal. intros [[msg Hstatus] _]. discriminate.
  - rewrite Hfinal'. intros [[msg Hstatus] _]. discriminate.
Qed.

(** C6 as stated fails.  For a file that ends with an empty line the chain
    returned ends with an empty block. *)
Lemma trailing_empty_block_counterexample :
  let content := "LEAF" +:+ blank_line +:+ "ROOT" +:+ blank_line in
  let st := {| status := MaintenanceStatus "Executing lego command";
               files := {[ chain_path "example.com" := content ]};
               calls := [] |} in
  let w := Sample.world Sample.valid_config true true "example.com"
             Sample.lego_fails in
  ∃ blocks,
    (_pull_certificates_from_workload "example.com" w st).1 = inr blocks ∧
    blocks = ["LEAF"; "ROOT"; ""] ∧
    ¬ no_empty_trailing_block blocks.
Proof.
  intros content st w. exists ["LEAF"; "ROOT"; ""].
  split_and!; [by_evaluation | done |]. intros Hlast. by apply Hlast.
Qed.

(** * Further properties of the code *)

(** ** The email check *)

Lemma free_of_app c s t : free_of c (s +:+ t) ↔ free_of c s ∧ free_of c t.
Proof.
  induction s as [|d s IH]; simpl; [tauto |]. rewrite IH. tauto.
Qed.

Lemma free_of_cons_self c s t : ¬ free_of c (s +:+ String c t).
Proof.
  rewrite free_of_app. simpl. tauto.
Qed.

(** The text before the first occurrence of a character is determined. *)
Lemma first_occurrence_unique c s1 t1 s2 t2 :
  free_of c s1 → free_of c s2 →
  s1 +:+ String c t1 = s2 +:+ String c t2 → s1 = s2 ∧ t1 = t2.
Proof.
  revert s2. induction s1 as [|d s1 IH]; intros [|e s2]; simpl.
  - intros _ _ [= ->]. done.
  - intros _ [He _] [= <- _]. done.
  - intros [Hd _] _ [= -> _]. done.
  - intros [_ H1] [_ H2] [= -> Heq]. destruct (IH s2 H1 H2 Heq) as [-> ->]. done.
Qed.

(** X1.  [_email_is_valid] accepts exactly the strings that start with one
    or more non-[@] characters, an [@], one or more non-[@] characters, a
    dot and one or more non-[@] characters. *)
Theorem email_check_accepts_exactly_the_shape (email : string) :
  _email_is_valid email = true ↔ email_format email.
Proof. apply _email_is_valid_spec. Qed.

(** X2.  [_email_is_valid] rejects every string without an [@], and every
    string in which no dot follows the first [@]. *)
Theorem email_check_rejects (email : string) :
  (free_of "@" email ∨
   ∃ loc rest, email = loc +:+ "@" +:+ rest ∧
               free_of "@" loc ∧ free_of "." rest) →
  _email_is_valid email = false.
Proof.
  intros Hbad. apply not_true_is_false. rewrite _email_is_valid_spec.
  intros (l & d & t & r & -> & [_ Hl] & _ & _).
  destruct Hbad as [Hfree|(loc & rest & Heq & Hloc & Hrest)].
  - by apply free_of_cons_self in Hfree.
  - apply first_occurrence_unique in Heq as [<- <-]; [|done..].
    by apply free_of_cons_self in Hrest.
Qed.

(** X2 on the email of the unit test. *)
Lemma email_check_rejects_witness : _email_is_valid "invalid-email" = false.
Proof.
  apply email_check_rejects. left. vm_compute. repeat split; discriminate.
Defined.

(** X3.  The check is a prefix match: whatever is appended to an accepted
    email, a second [@] included, is accepted too. *)
Theorem email_check_ignores_the_tail (email tail : string) :
  _email_is_valid email = true → _email_is_valid (email +:+ tail) = true.
Proof.
  rewrite !_email_is_valid_spec.
  intros (l & d & t & r & -> & H). exists l, d, t, (r +:+ tail).
  split; [|done]. rewrite !str_app_assoc. simpl. by rewrite ?str_app_assoc.
Qed.

(** X3 on an address followed by a second one. *)
Lemma email_check_ignores_the_tail_witness :
  _email_is_valid ("example@email.com" +:+ "@elsewhere") = true.
Proof. apply email_check_ignores_the_tail. vm_compute. reflexivity. Defined.

(** ** The environment of the Gandi plugin *)

Lemma set_if_truthy_lookup key v (d : gmap string (option string)) :
  Gandi.set_if_truthy key v d !! key = if Py.truthy v then Some v else d !! key.
Proof.
  unfold Gandi.set_if_truthy.
  destruct (Py.truthy v); [by rewrite lookup_insert_eq | done].
Qed.

(** The variable of an optional setting is bound exactly when the setting has
    a non-empty value. *)
Lemma plugin_config_optional cfg setting key :
  (setting, key) ∈ gandi_optional_settings →
  Gandi.plugin_config cfg !! key =
    if Py.truthy (cfg !! setting) then Some (cfg !! setting) else None.
Proof.
  unfold gandi_optional_settings. rewrite !elem_of_cons, elem_of_nil.
  unfold Gandi.plugin_config, Gandi._gandi_http_timeout,
    Gandi._gandi_polling_interval, Gandi._gandi_propagation_timeout,
    Gandi._gandi_ttl. cbv zeta.
  intros [[= -> ->]|[[= -> ->]|[[= -> ->]|[[= -> ->]|[]]]]];
    rewrite ?set_if_truthy_lookup_ne by done;
    rewrite set_if_truthy_lookup, ?set_if_truthy_lookup_ne by done;
    rewrite lookup_singleton_ne by done; done.
Qed.

Lemma plugin_config_other cfg key :
  key ≠ "GANDIV5_API_KEY" →
  (∀ setting, (setting, key) ∉ gandi_optional_settings) →
  Gandi.plugin_config cfg !! key = None.
Proof.
  intros Hkey Hnot. unfold Gandi.plugin_config. cbv zeta.
  rewrite !set_if_truthy_lookup_ne, lookup_singleton_ne; [done.. | | | |];
    intros <-; eapply Hnot; unfold gandi_optional_settings;
    rewrite !elem_of_cons; eauto 6.
Qed.

(** X4.  The environment mapping handed to lego binds the variable of an
    optional setting exactly when the setting has a non-empty value, and then
    to that value; apart from [GANDIV5_API_KEY] it binds nothing else, so an
    optional variable is never passed unset or empty. *)
Theorem plugin_config_omits_unset_options (cfg : gmap string string) :
  (∀ setting key, (setting, key) ∈ gandi_optional_settings →
     present (cfg !! setting) →
     Gandi.plugin_config cfg !! key = Some (cfg !! setting)) ∧
  (∀ key v, Gandi.plugin_config cfg !! key = Some v →
     key ≠ "GANDIV5_API_KEY" →
     ∃ setting x, (setting, key) ∈ gandi_optional_settings ∧
                  cfg !! setting = Some x ∧ x ≠ "" ∧ v = Some x).
Proof.
  split.
  - intros setting key Hin Hset%truthy_present.
    by rewrite (plugin_config_optional _ _ _ Hin), Hset.
  - intros key v Hlookup Hkey.
    destruct (decide (key ∈ gandi_optional_settings.*2)) as [Hin|Hnot].
    + apply list_elem_of_fmap in Hin as ([setting k] & -> & Hin). simpl in *.
      rewrite (plugin_config_optional _ _ _ Hin) in Hlookup.
      destruct (Py.truthy (cfg !! setting)) eqn:Ht; [|done].
      apply truthy_present in Ht as (x & Hx & Hne).
      exists setting, x. injection Hlookup as <-. done.
    + rewrite plugin_config_other in Hlookup; [done | done |].
      intros setting Hin. apply Hnot, list_elem_of_fmap.
      by exists (setting, key).
Qed.

(** X4 on a configuration that sets the TTL and nothing else optional. *)
Lemma plugin_config_omits_unset_options_witness :
  Gandi.plugin_config (<["gandi_ttl" := "300"]> Sample.valid_config)
    !! "GANDIV5_TTL" = Some (Some "300").
Proof.
  destruct (plugin_config_omits_unset_options
              (<["gandi_ttl" := "300"]> Sample.valid_config)) as [Hset _].
  rewrite (Hset "gandi_ttl" "GANDIV5_TTL").
  - vm_compute. reflexivity.
  - unfold gandi_optional_settings. rewrite !elem_of_cons. auto 6.
  - exists "300". split; [vm_compute; reflexivity | done].
Defined.

(** ** The hook of the Gandi charm, continued *)

(** Turn the parts of a statement on the configuration into the tests the
    code makes. *)
Ltac config_tests H :=
  let Hk := fresh "Hpk" in let He := fresh "Hpe" in
  let Hs := fresh "Hps" in let Hf := fresh "Hpf" in
  let Hu := fresh "Hpu" in
  destruct H as (Hk & He & Hs & Hf & Hu);
  apply truthy_present in Hk, He, Hs; apply _email_is_valid_spec in Hf.

(** Evaluate the hook with the outcomes of the tests known. *)
Ltac hook_eval :=
  intros;
  rewrite gandi_on_config_changed_eq, ?_validate_gandi_livedns_config_eq,
    ?validate_generic_acme_config_eq; cbv zeta;
  repeat match goal with
    | H : Py.truthy _ = _ |- _ => rewrite H
    | H : _email_is_valid _ = _ |- _ => rewrite H
    | H : urlparse _ _ = _ |- _ => rewrite H
    | H : forallb _ _ = _ |- _ => rewrite H
    end;
  cbn [negb snd]; reflexivity.

(** What the hook does is a function of the configuration: it raises the
    exception of [urlparse], or it assigns one status. *)
Lemma gandi_hook_cases (w : World) :
  (∃ e, gandi_server_unparsable w e ∧
        ∀ event st, Gandi.on_config_changed event w st = (inl e, st)) ∨
  (∃ s, (∀ e, ¬ gandi_server_unparsable w e) ∧
        (∀ event st,
           Gandi.on_config_changed event w st = (inr (), status_set s st)) ∧
        (is_active s = true ↔ gandi_config_valid w) ∧
        (is_active s = false → is_blocked s = true) ∧
        (is_active s = true → s = ActiveStatus "")).
Proof.
  destruct (Py.truthy (config w !! "gandi_api_key")) eqn:Hk; cycle 1.
  { right. eexists (BlockedStatus _). split_and!; [| hook_eval | | done | done].
    - intros e H. config_tests H. congruence.
    - split; [done |]. intros H. config_tests H. congruence. }
  destruct (Py.truthy (config w !! "email")) eqn:He; cycle 1.
  { right. eexists (BlockedStatus _). split_and!; [| hook_eval | | done | done].
    - intros e H. config_tests H. congruence.
    - split; [done |]. intros H. config_tests H. congruence. }
  destruct (Py.truthy (config w !! "server")) eqn:Hs; cycle 1.
  { right. eexists (BlockedStatus _). split_and!; [| hook_eval | | done | done].
    - intros e H. config_tests H. congruence.
    - split; [done |]. intros H. config_tests H. congruence. }
  destruct (_email_is_valid (default "" (config w !! "email"))) eqn:Hf;
    cycle 1.
  { right. eexists (BlockedStatus _). split_and!; [| hook_eval | | done | done].
    - intros e H. config_tests H. congruence.
    - split; [done |]. intros H. config_tests H. congruence. }
  destruct (urlparse w (default "" (config w !! "server"))) as [e|url] eqn:Hu.
  { left. exists e. split; [|hook_eval].
    apply truthy_present in Hk, He, Hs. apply _email_is_valid_spec in Hf.
    by repeat split. }
  destruct (forallb Py.truthy [Some (scheme url); Some (netloc url)]) eqn:Hfb.
  - right. exists (ActiveStatus ""). split_and!; [| hook_eval | | done | done].
    + intros e H. config_tests H. congruence.
    + split; [intros _ | done].
      apply truthy_present in Hk, He, Hs. apply _email_is_valid_spec in Hf.
      apply url_parts_truthy in Hfb. repeat split; try done. by exists url.
  - right. eexists (BlockedStatus _). split_and!; [| hook_eval | | done | done].
    + intros e H. config_tests H. congruence.
    + split; [done |]. intros H. config_tests H.
      destruct Hpu as (url' & Hparse & Hparts). rewrite Hu in Hparse.
      injection Hparse as <-. apply url_parts_truthy in Hparts. congruence.
Qed.

(** X5.  The hook [_on_config_changed] of the Gandi charm returns with an
    [Active] status exactly when the configuration is valid: the API key, the
    email and the server are set, the email has the shape of the pattern and
    [urlparse] finds a scheme and a host in the server.  When it returns with
    another status, that status is [Blocked].  It raises exactly when the
    checks before the parse of the server pass and [urlparse] raises on the
    server, and then it leaves the state as it was. *)
Theorem gandi_hook_active_iff_valid (event : Event) (w : World) (st : State) :
  let r := Gandi.on_config_changed event w st in
  (r.1 = inr () ∧ is_active (status r.2) = true ↔ gandi_config_valid w) ∧
  (r.1 = inr () → is_active (status r.2) = false →
     is_blocked (status r.2) = true) ∧
  (∀ e, r.1 = inl e ↔ gandi_server_unparsable w e) ∧
  (∀ e, r.1 = inl e → r.2 = st).
Proof.
  cbv zeta.
  destruct (gandi_hook_cases w)
    as [(e0 & Hraises & Hhook)|(s & Hreturns & Hhook & Hvalid & Hblocked & _)];
    rewrite Hhook; cbn [fst snd status status_set]; split_and!.
  - split; [by intros [[=] _] |]. intros (_ & _ & _ & _ & url & Hparse & _).
    destruct Hraises as (_ & _ & _ & _ & Hparse'). congruence.
  - intros [=].
  - intros e. split; [by intros [= <-] |].
    intros (_ & _ & _ & _ & Hparse).
    destruct Hraises as (_ & _ & _ & _ & Hparse'). congruence.
  - done.
  - rewrite <- Hvalid. tauto.
  - intros _. exact Hblocked.
  - intros e. split; [intros [=] | intros H; by apply Hreturns in H].
  - intros e [=].
Qed.

(** X6.  For a given configuration the hook of the Gandi charm does one of
    two things, whatever the state and the event: it raises the exception of
    [urlparse] and leaves the state as it was, or it assigns the unit status
    exactly once, to a status that depends on the configuration alone, and
    leaves the files and the earlier calls as they were. *)
Theorem gandi_hook_raises_or_sets_one_status (w : World) :
  (∃ e, ∀ event st, Gandi.on_config_changed event w st = (inl e, st)) ∨
  (∃ s, ∀ event st,
     Gandi.on_config_changed event w st = (inr (), status_set s st)).
Proof.
  destruct (gandi_hook_cases w) as [(e & _ & Hhook)|(s & _ & Hhook & _)];
    [left; by exists e | right; by exists s].
Qed.

(** X7.  The provider check comes first.  With an unset API key the hook
    reports the missing key whatever the email and the server are; with the
    key set and a failing generic check, the status is the one of the generic
    check. *)
Theorem gandi_hook_reports_provider_first (event : Event) (w : World)
    (st : State) :
  (¬ present (config w !! "gandi_api_key") →
     Gandi.on_config_changed event w st =
       (inr (),
        status_set
          (BlockedStatus
             "The following config options must be set: GANDIV5_API_KEY") st)) ∧
  (present (config w !! "gandi_api_key") →
     ∀ st', validate_generic_acme_config w st = (inr false, st') →
            Gandi.on_config_changed event w st = (inr (), st')).
Proof.
  rewrite gandi_on_config_changed_eq, _validate_gandi_livedns_config_eq.
  rewrite <- truthy_present.
  destruct (Py.truthy (config w !! "gandi_api_key")); cbn [negb snd].
  - split; [done |]. intros _ st' Hgeneric. by rewrite Hgeneric.
  - split; [done |]. intros [=].
Qed.

(** X7 on the configuration of the unit test without an API key, whose
    email is invalid too. *)
Lemma gandi_hook_reports_provider_first_witness :
  Gandi.on_config_changed Sample.request
    (Sample.world Sample.no_api_key_config true true "example.com"
       Sample.lego_fails) Sample.start
  = (inr (),
     status_set
       (BlockedStatus
          "The following config options must be set: GANDIV5_API_KEY")
       Sample.start).
Proof.
  destruct (gandi_hook_reports_provider_first Sample.request
              (Sample.world Sample.no_api_key_config true true "example.com"
                 Sample.lego_fails) Sample.start) as [Hunset _].
  apply Hunset. intros (x & Hx & _). by vm_compute in Hx.
Defined.

(** ** The command line and the run of lego *)

(** X8.  Once [validate_generic_acme_config] has returned [True], [_cmd]
    does not raise: in any state it returns the command line
    [lego --email <email> --accept-tos --csr /tmp/csr.pem --server <server>
    --dns <plugin> run]. *)
Theorem cmd_defined_after_validation `{AcmeClient} (w : World)
    (st st' st2 : State) :
  validate_generic_acme_config w st = (inr true, st') →
  _cmd w st2 =
    (inr ["lego"; "--email"; default "" (config w !! "email"); "--accept-tos";
          "--csr"; "/tmp/csr.pem"; "--server";
          default "" (config w !! "server"); "--dns"; _plugin; "run"], st2).
Proof.
  rewrite validate_generic_acme_config_eq. cbv zeta.
  destruct (Py.truthy (config w !! "email")) eqn:He; [|intros [=]].
  destruct (Py.truthy (config w !! "server")) eqn:Hs; [|intros [=]].
  intros _. apply _cmd_eq; by apply truthy_present.
Qed.

(** X8 on the valid sample configuration. *)
Lemma cmd_defined_after_validation_witness :
  let w := Sample.world Sample.valid_config true true "example.com"
             Sample.lego_fails in
  _cmd w Sample.start =
    (inr ["lego"; "--email"; "example@email.com"; "--accept-tos"; "--csr";
          "/tmp/csr.pem"; "--server"; Sample.acme_server; "--dns"; "gandiv5";
          "run"], Sample.start).
Proof.
  intros w.
  rewrite (cmd_defined_after_validation w Sample.start Sample.start
             Sample.start) by (vm_compute; reflexivity).
  vm_compute. reflexivity.
Defined.

(** [_cmd] without an email or without a server. *)
Lemma _cmd_raises `{AcmeClient} (w : World) (st : State) :
  ¬ (present (config w !! "email") ∧ present (config w !! "server")) →
  _cmd w st =
    (inl (ValueError (if Py.truthy (config w !! "email")
                      then "ACME server was not provided"
                      else "Email address was not provided")), st).
Proof.
  rewrite <- !truthy_present. intros Hmissing. unfold _cmd, _email, _server.
  bind_step. destruct (Py.truthy (config w !! "email")); [|done].
  cbn [negb]. cbv beta iota. bind_step.
  destruct (Py.truthy (config w !! "server")); [|done]. tauto.
Qed.

(** X9.  Without an email or without a server, [_execute_lego_cmd] raises
    the [ValueError] of [_cmd] (the one for the email when both are missing)
    and leaves the state as it was: lego is not run. *)
Theorem execute_without_settings_runs_nothing `{AcmeClient} (w : World)
    (st : State) :
  ¬ (present (config w !! "email") ∧ present (config w !! "server")) →
  _execute_lego_cmd w st =
    (inl (ValueError (if Py.truthy (config w !! "email")
                      then "ACME server was not provided"
                      else "Email address was not provided")), st).
Proof.
  intros Hmissing. unfold _execute_lego_cmd.
  erewrite bind_inl; [reflexivity |]. by apply _cmd_raises.
Qed.

(** X9 on a configuration with an email and no server. *)
Lemma execute_without_settings_runs_nothing_witness :
  let w := Sample.world {[ "email" := "example@email.com" ]} true true
             "example.com" Sample.lego_fails in
  _execute_lego_cmd w Sample.start =
    (inl (ValueError "ACME server was not provided"), Sample.start).
Proof.
  intros w. apply (execute_without_settings_runs_nothing w Sample.start).
  intros [_ (x & Hx & _)]. by vm_compute in Hx.
Defined.

(** ** The CSR in the workload *)

(** X10.  [_push_csr_to_workload] writes the CSR to [/tmp/csr.pem] whatever
    was there before and touches no other file and not the status: after a
    second push the files are those of the second push alone. *)
Theorem push_overwrites_the_csr (w : World) (st : State) (csr1 csr2 : string) :
  let st1 := (_push_csr_to_workload csr1 w st).2 in
  let st2 := (_push_csr_to_workload csr2 w st1).2 in
  files st1 !! "/tmp/csr.pem" = Some csr1 ∧
  (∀ path, path ≠ "/tmp/csr.pem" → files st1 !! path = files st !! path) ∧
  status st1 = status st ∧
  files st2 = files (_push_csr_to_workload csr2 w st).2.
Proof.
  cbv zeta. unfold _push_csr_to_workload, container_push, _csr_path.
  cbn [snd files status]. split_and!.
  - apply lookup_insert_eq.
  - intros path Hpath. by apply lookup_insert_ne.
  - done.
  - apply insert_insert_eq.
Qed.

(** ** Reading back a chain *)

Section blank_line_scan.
Implicit Types (block cur rest : string).

Lemma contains_cons c s t : Py.contains s t → Py.contains (String c s) t.
Proof. apply (contains_prepend (String c "")). Qed.

(** Where the scan of [Py.split_go] does not cut. *)
Lemma no_cut_inside c block rest :
  ¬ Py.contains (String c block) blank_line →
  (block = "" → c ≠ "010"%char ∨ String.prefix newline rest = false) →
  String.prefix blank_line (String c (block +:+ rest)) = false.
Proof.
  intros Hfree Hlast. unfold blank_line. cbn [String.prefix].
  destruct (ascii_dec "010" c) as [<-|]; [|done].
  destruct block as [|d block]; cbn [String.append String.prefix].
  - destruct (Hlast eq_refl) as [|Hrest]; [done |]. exact Hrest.
  - destruct (ascii_dec "010" d) as [<-|]; [|done].
    destruct Hfree. exists "", block. reflexivity.
Qed.

(** The scan of a block that is followed by an empty line. *)
Lemma split_go_block block cur rest :
  ¬ Py.contains block blank_line → (∀ s, block ≠ s +:+ newline) →
  Py.split_go blank_line 0 cur (block +:+ blank_line +:+ rest)
    = (String.rev cur +:+ block) :: Py.split_go blank_line 0 "" rest.
Proof.
  revert cur. induction block as [|c block IH]; intros cur Hfree Hend.
  - rewrite str_app_nil_r.
    change ("" +:+ blank_line +:+ rest) with (String "010" (String "010" rest)).
    cbn [Py.split_go].
    change (String "010" (String "010" rest)) with (blank_line +:+ rest).
    rewrite prefix_app. reflexivity.
  - change (String c block +:+ blank_line +:+ rest)
      with (String c (block +:+ blank_line +:+ rest)).
    cbn [Py.split_go]. rewrite no_cut_inside.
    + rewrite IH.
      * by rewrite rev_cons, str_app_assoc.
      * intros Hin. by apply Hfree, contains_cons.
      * intros s ->. by apply (Hend (String c s)).
    + done.
    + intros ->. left. intros ->. by apply (Hend "").
Qed.

(** The scan of the last block. *)
Lemma split_go_last block cur :
  ¬ Py.contains block blank_line →
  Py.split_go blank_line 0 cur block = [String.rev cur +:+ block].
Proof.
  revert cur. induction block as [|c block IH]; intros cur Hfree.
  - cbn [Py.split_go]. by rewrite str_app_nil_r.
  - cbn [Py.split_go].
    rewrite <- (str_app_nil_r block) at 1. rewrite no_cut_inside.
    + rewrite IH; [by rewrite rev_cons, str_app_assoc |].
      intros Hin. by apply Hfree, contains_cons.
    + done.
    + intros _. by right.
Qed.

Lemma split_join blocks :
  blocks ≠ [] → well_separated blocks →
  Py.split blank_line (Py.join blank_line blocks) = blocks.
Proof.
  unfold Py.split. induction blocks as [|block blocks IH]; [done |].
  intros _ [Hfree Hend]. destruct blocks as [|block' blocks].
  - simpl. apply split_go_last, Hfree. by left.
  - rewrite join_cons by done. rewrite split_go_block.
    + f_equal. apply IH; [done |]. split.
      * intros b Hb. apply Hfree. by right.
      * intros b Hb. apply Hend. simpl. by right.
    + apply Hfree. by left.
    + apply Hend. simpl. by left.
Qed.

End blank_line_scan.

(** X11.  A chain file written as blocks with an empty line between them is
    read back as these blocks, provided the blocks can be told apart: none
    contains an empty line and none but the last ends with a newline. *)
Theorem pull_reads_back_the_blocks (w : World) (st : State)
    (subject : string) (blocks : list string) :
  blocks ≠ [] → well_separated blocks →
  files st !! chain_path subject = Some (Py.join blank_line blocks) →
  (_pull_certificates_from_workload subject w st).1 = inr blocks.
Proof.
  intros Hne Hsep Hfile. unfold _pull_certificates_from_workload.
  erewrite bind_inr; [|unfold container_pull; fold (chain_path subject);
                       by rewrite Hfile].
  cbn [fst mret M_ret]. fold blank_line. by rewrite split_join.
Qed.

(** X11 on three blocks, the last of which ends with a newline. *)
Lemma pull_reads_back_the_blocks_witness :
  let blocks := ["LEAF"; "INTERMEDIATE"; "ROOT" +:+ newline] in
  let st := {| status := MaintenanceStatus "Executing lego command";
               files := {[ chain_path "example.com" :=
                             Py.join blank_line blocks ]};
               calls := [] |} in
  let w := Sample.world Sample.valid_config true true "example.com"
             Sample.lego_fails in
  (_pull_certificates_from_workload "example.com" w st).1 = inr blocks.
Proof.
  intros blocks st w. apply pull_reads_back_the_blocks.
  - done.
  - split.
    + intros block Hin Hcontains.
      eapply (split_no_sep blank_line); [done | | exact Hcontains].
      instantiate (1 := Py.join blank_line blocks).
      vm_compute. vm_compute in Hin. exact Hin.
    + intros block Hin s ->. vm_compute in Hin.
      apply elem_of_cons in Hin as [Heq|Hin].
      * destruct s as [|? [|? [|? [|? [|? ?]]]]]; discriminate.
      * apply list_elem_of_singleton in Hin.
        repeat (destruct s as [|? s]; [discriminate | injection Hin as ? Hin]).
        destruct s; discriminate.
  - vm_compute. reflexivity.
Defined.

(** ** Every way the handler can end *)

Lemma _get_subject_from_csr_state csr (w : World) (st : State) :
  (_get_subject_from_csr csr w st).2 = st.
Proof.
  unfold _get_subject_from_csr, mbind, M_bind, ask, or_raise, raise, mret,
    M_ret.
  destruct (load_pem_x509_csr w csr) as [e|names]; [done |].
  destruct (Py.index names 0) as [[]|]; done.
Qed.

(** Run the handler up to the call of [_execute_lego_cmd]. *)
Ltac to_lego Hhook Hactive Hleader Hconnect Hsubject Hshort :=
  unfold _on_certificate_creation_request;
  erewrite bind_inr by exact Hhook; cbv beta;
  bind_step; branch Hactive; bind_step; branch Hleader;
  branch Hconnect; erewrite bind_inr by exact Hsubject; cbv beta;
  apply Nat.leb_le in Hshort; rewrite Nat.leb_antisym in Hshort;
  apply negb_true_iff in Hshort; branch Hshort;
  unfold _push_csr_to_workload; do 2 bind_step.

Section paths.
Context `{charm : AcmeClient}.
Variables (event : Event) (w : World) (st st1 : State).
Hypothesis Hhook : _on_config_changed event w st = (inr (), st1).

Lemma path_deferred :
  is_active (status st1) = false →
  _on_certificate_creation_request event w st =
    (inr (), after st1 (status st1) (files st1) [Defer event]).
Proof using Hhook.
  intros Hactive. unfold _on_certificate_creation_request.
  do 2 bind_step. branch Hactive. done.
Qed.

Lemma path_not_leader :
  is_active (status st1) = true → is_leader w = false →
  _on_certificate_creation_request event w st =
    (inr (), after st1 (status st1) (files st1) []).
Proof using Hhook.
  intros Hactive Hleader. unfold _on_certificate_creation_request.
  do 2 bind_step. branch Hactive. bind_step. branch Hleader.
  unfold after. rewrite app_nil_r. by destruct st1.
Qed.

Lemma path_waiting :
  is_active (status st1) = true → is_leader w = true → can_connect w = false →
  _on_certificate_creation_request event w st =
    (inr (),
     after st1 waiting_for_container (files st1)
       [SetStatus waiting_for_container; Defer event]).
Proof using Hhook.
  intros Hactive Hleader Hconnect. unfold _on_certificate_creation_request.
  do 2 bind_step. branch Hactive. bind_step. branch Hleader. branch Hconnect.
  bind_step. unfold defer, record, after. simpl. by rewrite <- app_assoc.
Qed.

Lemma path_bad_csr e :
  is_active (status st1) = true → is_leader w = true → can_connect w = true →
  _get_subject_from_csr (certificate_signing_request event) w st1
    = (inl e, st1) →
  _on_certificate_creation_request event w st =
    (inl e, after st1 (status st1) (files st1) []).
Proof using Hhook.
  intros Hactive Hleader Hconnect Hsubject.
  unfold _on_certificate_creation_request.
  do 2 bind_step. branch Hactive. bind_step. branch Hleader. branch Hconnect.
  erewrite bind_inl by exact Hsubject.
  unfold after. rewrite app_nil_r. by destruct st1.
Qed.

Lemma path_long_subject subject :
  is_active (status st1) = true → is_leader w = true → can_connect w = true →
  _get_subject_from_csr (certificate_signing_request event) w st1
    = (inr subject, st1) →
  (64 < String.length subject)%nat →
  let blocked :=
    BlockedStatus ("Subject is too long (> 64 characters): " +:+ subject) in
  _on_certificate_creation_request event w st =
    (inr (), after st1 blocked (files st1) [SetStatus blocked]).
Proof using Hhook.
  intros Hactive Hleader Hconnect Hsubject Hlong%Nat.ltb_lt.
  unfold _on_certificate_creation_request.
  do 2 bind_step. branch Hactive. bind_step. branch Hleader. branch Hconnect.
  bind_step. branch Hlong. done.
Qed.

Lemma path_no_command subject :
  is_active (status st1) = true → is_leader w = true → can_connect w = true →
  _get_subject_from_csr (certificate_signing_request event) w st1
    = (inr subject, st1) →
  (String.length subject ≤ 64)%nat →
  ¬ (present (config w !! "email") ∧ present (config w !! "server")) →
  ∃ msg,
    _on_certificate_creation_request event w st =
      (inl (ValueError msg),
       after st1 executing
         (<[_csr_path := certificate_signing_request event]> (files st1))
         [Push _csr_path true (certificate_signing_request event);
          SetStatus executing]).
Proof using Hhook.
  intros Hactive Hleader Hconnect Hsubject Hshort Hmissing. eexists.
  to_lego Hhook Hactive Hleader Hconnect Hsubject Hshort.
  erewrite bind_inl;
    [|unfold _execute_lego_cmd; erewrite bind_inl;
      [reflexivity | by apply _cmd_raises]].
  f_equal. unfold after, executing. cbn [status files calls].
  by rewrite <- app_assoc.
Qed.

Lemma path_no_chain subject out err :
  is_active (status st1) = true → is_leader w = true → can_connect w = true →
  _get_subject_from_csr (certificate_signing_request event) w st1
    = (inr subject, st1) →
  (String.length subject ≤ 64)%nat →
  present (config w !! "email") → present (config w !! "server") →
  (lego_run event w st1).1 = WaitOutput out err →
  (lego_run event w st1).2 !! chain_path subject = None →
  _on_certificate_creation_request event w st =
    (inl (PathError (chain_path subject)),
     after st1 executing (lego_run event w st1).2
       (execution_calls event w ++ [Pull (chain_path subject)])).
Proof using Hhook.
  intros Hactive Hleader Hconnect Hsubject Hshort Hemail Hserver Hran Hfile.
  to_lego Hhook Hactive Hleader Hconnect Hsubject Hshort.
  rewrite bind_eq.
  rewrite (_execute_lego_cmd_eq _ _ (lego_command w))
    by (apply _cmd_eq; [exact Hemail | exact Hserver]).
  cbv beta zeta. cbn [files status calls set_status container_push snd].
  fold (lego_command w). fold (lego_run event w st1).
  rewrite Hran. cbn [negb]. cbv beta iota.
  erewrite bind_inl;
    [|unfold _pull_certificates_from_workload; erewrite bind_inl;
      [reflexivity |];
      unfold container_pull, after; cbn [files];
      fold (chain_path subject); rewrite Hfile; reflexivity].
  f_equal. unfold after, executing, execution_calls. cbn [status files calls].
  by rewrite <- !app_assoc.
Qed.

(** After the hook, the handler ends in one of the ways of [handler_run]. *)
Lemma handler_run_total :
  ∃ r s fs l,
    _on_certificate_creation_request event w st = (r, after st1 s fs l) ∧
    handler_run event w st1 r s fs l.
Proof using Hhook.
  destruct (is_active (status st1)) eqn:Hactive;
    [|eexists _, _, _, _; split; [by apply path_deferred | by constructor]].
  destruct (is_leader w) eqn:Hleader;
    [|eexists _, _, _, _; split; [by apply path_not_leader | by constructor]].
  destruct (can_connect w) eqn:Hconnect;
    [|eexists _, _, _, _; split; [by apply path_waiting | by constructor]].
  destruct (_get_subject_from_csr (certificate_signing_request event) w st1)
    as [[e|subject] st1'] eqn:Hsubject;
    pose proof (_get_subject_from_csr_state
                  (certificate_signing_request event) w st1) as Hstate;
    rewrite Hsubject in Hstate; simpl in Hstate; subst st1'.
  { eexists _, _, _, _. split; [by eapply path_bad_csr | by constructor]. }
  destruct (decide (64 < String.length subject)%nat) as [Hlong|Hshort].
  { eexists _, _, _, _.
    split; [by eapply path_long_subject | by econstructor]. }
  apply Nat.nlt_ge in Hshort.
  destruct (Py.truthy (config w !! "email")) eqn:Hemail; cycle 1.
  { destruct (path_no_command subject) as [msg Hrun]; try done.
    - rewrite <- !truthy_present, Hemail. by intros [[=] _].
    - eexists _, _, _, _. split; [exact Hrun |]. constructor; [done |].
      rewrite <- !truthy_present, Hemail. by intros [[=] _]. }
  destruct (Py.truthy (config w !! "server")) eqn:Hserver; cycle 1.
  { destruct (path_no_command subject) as [msg Hrun]; try done.
    - rewrite <- !truthy_present, Hserver. by intros [_ [=]].
    - eexists _, _, _, _. split; [exact Hrun |]. constructor; [done |].
      rewrite <- !truthy_present, Hserver. by intros [_ [=]]. }
  apply truthy_present in Hemail, Hserver.
  destruct ((lego_run event w st1).1) as [out err|code stderr|e] eqn:Hran;
    cycle 1.
  { eexists _, _, _, _.
    split; [by eapply execution_failure | by econstructor]. }
  { eexists _, _, _, _.
    split; [by eapply execution_raised | by econstructor]. }
  destruct ((lego_run event w st1).2 !! chain_path subject)
    as [content|] eqn:Hfile; cycle 1.
  { eexists _, _, _, _.
    split; [by eapply path_no_chain | by econstructor]. }
  destruct (execution_success event w st st1 subject Hhook Hactive Hleader
              Hconnect Hsubject Hshort Hemail Hserver out err content
              Hran Hfile) as (leaf & ca & Hleaf & Hca & Hfinal).
  eexists _, _, _, _. split; [exact Hfinal | by econstructor].
Qed.

End paths.

(** ** What no run of the handler does *)

(** X12.  After the hook, the handler publishes at most once; when it does,
    the publication is followed only by the assignment of [Active], and the
    handler returns normally with the status [Active]. *)
Theorem handler_publishes_at_most_once `{AcmeClient} (event : Event)
    (w : World) (st st1 : State) :
  _on_config_changed event w st = (inr (), st1) →
  let final := _on_certificate_creation_request event w st in
  ∃ l, calls final.2 = calls st1 ++ l ∧
    (length (List.filter is_publish l) ≤ 1)%nat ∧
    (existsb is_publish l = true →
       final.1 = inr () ∧ status final.2 = ActiveStatus "" ∧
       ∃ l' c, l = l' ++ [c; SetStatus (ActiveStatus "")] ∧
               is_publish c = true ∧ existsb is_publish l' = false).
Proof.
  intros Hhook final.
  destruct (handler_run_total event w st st1 Hhook)
    as (r & s & fs & l & Hfinal & Hrun).
  unfold final. rewrite Hfinal. exists l. split; [done |].
  destruct Hrun; unfold execution_calls; cbn; split; try lia; try done.
  intros _. split_and!; [done | done |].
  eexists (_ :: _ :: _ :: [_]), _. split; [reflexivity | done].
Qed.

(** X12 on a request for which [lego] writes a chain of three blocks. *)
Lemma handler_publishes_at_most_once_witness :
  let w := Sample.world Sample.valid_config true true "example.com"
             (Sample.lego_writes "example.com" Sample.chain3) in
  let final := _on_certificate_creation_request Sample.request w Sample.start in
  ∃ l, calls final.2 = calls (status_set (ActiveStatus "") Sample.start) ++ l ∧
       (length (List.filter is_publish l) ≤ 1)%nat.
Proof.
  intros w final.
  destruct (handler_publishes_at_most_once Sample.request w Sample.start
              (status_set (ActiveStatus "") Sample.start))
    as (l & Hcalls & Hcount & _); [by_evaluation |].
  by exists l.
Defined.

(** X13.  A run that defers the event has not touched the workload or the
    relation: it returns normally, has pushed, run, pulled and published
    nothing, and leaves the files as the hook left them.  The request can be
    delivered again as if for the first time. *)
Theorem deferred_run_leaves_no_trace `{AcmeClient} (event : Event)
    (w : World) (st st1 : State) :
  _on_config_changed event w st = (inr (), st1) →
  let final := _on_certificate_creation_request event w st in
  ∃ l, calls final.2 = calls st1 ++ l ∧
    (existsb is_defer l = true →
       final.1 = inr () ∧ files final.2 = files st1 ∧
       existsb is_workload_call l = false ∧ existsb is_publish l = false ∧
       last l = Some (Defer event)).
Proof.
  intros Hhook final.
  destruct (handler_run_total event w st st1 Hhook)
    as (r & s & fs & l & Hfinal & Hrun).
  unfold final. rewrite Hfinal. exists l. split; [done |].
  destruct Hrun; unfold execution_calls; cbn; done.
Qed.

(** X13 on a request that arrives while the email is invalid. *)
Lemma deferred_run_leaves_no_trace_witness :
  let w := Sample.world Sample.invalid_email_config true true "example.com"
             Sample.lego_fails in
  let final := _on_certificate_creation_request Sample.request w Sample.start in
  ∃ l, calls final.2 =
         calls (status_set (BlockedStatus "Invalid email address")
                  Sample.start) ++ l.
Proof.
  intros w final.
  destruct (deferred_run_leaves_no_trace Sample.request w Sample.start
              (status_set (BlockedStatus "Invalid email address")
                 Sample.start))
    as (l & Hcalls & _); [by_evaluation |].
  by exists l.
Defined.

(** X14.  The handler runs lego at most once, and only right after it has
    pushed the CSR of the request to [/tmp/csr.pem] and set [Maintenance]:
    a run with an [Exec] call starts with these three calls, and pushes and
    runs nothing after them. *)
Theorem lego_runs_once_after_the_push `{AcmeClient} (event : Event)
    (w : World) (st st1 : State) :
  _on_config_changed event w st = (inr (), st1) →
  let final := _on_certificate_creation_request event w st in
  ∃ l, calls final.2 = calls st1 ++ l ∧
    (existsb is_exec l = true →
       ∃ rest,
         l = [Push "/tmp/csr.pem" true (certificate_signing_request event);
              SetStatus (MaintenanceStatus "Executing lego command");
              Exec (lego_command w) 300 "/tmp" (_plugin_config (config w))]
             ++ rest ∧
         existsb is_exec rest = false ∧ existsb is_push rest = false).
Proof.
  intros Hhook final.
  destruct (handler_run_total event w st st1 Hhook)
    as (r & s & fs & l & Hfinal & Hrun).
  unfold final. rewrite Hfinal. exists l. split; [done |].
  destruct Hrun; unfold execution_calls; cbn; try done;
    intros _; eexists; (split; [reflexivity | done]).
Qed.

(** X14 on a request for which [lego] exits with status 1. *)
Lemma lego_runs_once_after_the_push_witness :
  let w := Sample.world Sample.valid_config true true "example.com"
             Sample.lego_fails in
  let final := _on_certificate_creation_request Sample.request w Sample.start in
  ∃ l, calls final.2 = calls (status_set (ActiveStatus "") Sample.start) ++ l.
Proof.
  intros w final.
  destruct (lego_runs_once_after_the_push Sample.request w Sample.start
              (status_set (ActiveStatus "") Sample.start))
    as (l & Hcalls & _); [by_evaluation |].
  by exists l.
Defined.

(** X15.  When the handler raises after the hook has returned, it has
    neither published nor deferred: the request is not queued again. *)
Theorem raising_run_neither_publishes_nor_defers `{AcmeClient}
    (event : Event) (w : World) (st st1 : State) (e : Exn) :
  _on_config_changed event w st = (inr (), st1) →
  (_on_certificate_creation_request event w st).1 = inl e →
  ∃ l, calls (_on_certificate_creation_request event w st).2 = calls st1 ++ l ∧
       existsb is_publish l = false ∧ existsb is_defer l = false.
Proof.
  intros Hhook.
  destruct (handler_run_total event w st st1 Hhook)
    as (r & s & fs & l & Hfinal & Hrun).
  rewrite Hfinal. cbn [fst snd]. intros ->. exists l. split; [done |].
  inversion Hrun; subst; unfold execution_calls; cbn; done.
Qed.

(** X15 on a request for which [lego] succeeds without writing the chain of
    the subject. *)
Lemma raising_run_neither_publishes_nor_defers_witness :
  let w := Sample.world Sample.valid_config true true "example.com"
             (Sample.lego_writes "other.example.org" Sample.chain3) in
  let final := _on_certificate_creation_request Sample.request w Sample.start in
  ∃ l, calls final.2 = calls (status_set (ActiveStatus "") Sample.start) ++ l ∧
       existsb is_publish l = false ∧ existsb is_defer l = false.
Proof.
  intros w final.
  apply (raising_run_neither_publishes_nor_defers Sample.request w Sample.start
           (status_set (ActiveStatus "") Sample.start)
           (PathError (chain_path "example.com"))); by_evaluation.
Defined.

(** ** The runs that raise *)

(** X16.  A CSR that cannot be parsed, or whose subject has no common name,
    makes the handler raise (the exception of the parser, or [IndexError])
    in the state the hook left: no status is set, nothing is pushed and the
    event is not deferred. *)
Theorem unparsable_csr_raises `{AcmeClient} (event : Event) (w : World)
    (st st1 : State) (e : Exn) :
  _on_config_changed event w st = (inr (), st1) →
  is_active (status st1) = true →
  is_leader w = true →
  can_connect w = true →
  (load_pem_x509_csr w (certificate_signing_request event) = inl e ∨
   load_pem_x509_csr w (certificate_signing_request event) = inr [] ∧
   e = IndexError) →
  _on_certificate_creation_request event w st = (inl e, st1).
Proof.
  intros Hhook Hactive Hleader Hconnect Hcsr.
  rewrite (path_bad_csr event w st st1 Hhook e Hactive Hleader Hconnect).
  - unfold after. rewrite app_nil_r. by destruct st1.
  - unfold _get_subject_from_csr. bind_step.
    by destruct Hcsr as [->|[-> ->]].
Qed.

(** X16 on a CSR without a common name. *)
Lemma unparsable_csr_raises_witness :
  let w := {| config := Sample.valid_config; is_leader := true;
              can_connect := true; load_pem_x509_csr := λ _, inr [];
              urlparse := Sample.urlparse_sample;
              lego := Sample.lego_fails |} in
  _on_certificate_creation_request Sample.request w Sample.start =
    (inl IndexError, status_set (ActiveStatus "") Sample.start).
Proof.
  intros w.
  apply (unparsable_csr_raises Sample.request w Sample.start);
    try by_evaluation.
  right. by split.
Defined.

(** X17.  When lego succeeds but the file of the chain is not there, the
    handler raises [PathError] for [/tmp/.lego/certificates/<subject>.crt]:
    nothing is published and the status stays [Maintenance]. *)
Theorem missing_chain_file_raises `{AcmeClient} (event : Event) (w : World)
    (st st1 : State) (subject out err : string) :
  _on_config_changed event w st = (inr (), st1) →
  is_active (status st1) = true →
  is_leader w = true →
  can_connect w = true →
  _get_subject_from_csr (certificate_signing_request event) w st1
    = (inr subject, st1) →
  (String.length subject ≤ 64)%nat →
  present (config w !! "email") →
  present (config w !! "server") →
  (lego_run event w st1).1 = WaitOutput out err →
  (lego_run event w st1).2
    !! ("/tmp/.lego/certificates/" +:+ subject +:+ ".crt") = None →
  let final := _on_certificate_creation_request event w st in
  final.1 = inl (PathError ("/tmp/.lego/certificates/" +:+ subject +:+ ".crt")) ∧
  status final.2 = MaintenanceStatus "Executing lego command" ∧
  calls final.2 =
    calls st1 ++ execution_calls event w ++
    [Pull ("/tmp/.lego/certificates/" +:+ subject +:+ ".crt")].
Proof.
  intros Hhook Hactive Hleader Hconnect Hsubject Hshort Hemail Hserver Hran
    Hfile final.
  unfold final.
  by rewrite (path_no_chain event w st st1 Hhook subject out err).
Qed.

(** X17 on a request for which [lego] writes the chain of another subject. *)
Lemma missing_chain_file_raises_witness :
  let w := Sample.world Sample.valid_config true true "example.com"
             (Sample.lego_writes "other.example.org" Sample.chain3) in
  (_on_certificate_creation_request Sample.request w Sample.start).1 =
    inl (PathError "/tmp/.lego/certificates/example.com.crt").
Proof.
  intros w.
  apply (missing_chain_file_raises Sample.request w Sample.start
           (status_set (ActiveStatus "") Sample.start) "example.com" "" "");
    by_evaluation.
Defined.

(** ** A chain of one block *)

(** X18.  When the file of the chain holds no empty line, the chain is this
    one block: the handler publishes it as the certificate and as the ca,
    and the chain published is the list of this block alone. *)
Theorem single_block_is_leaf_and_ca `{AcmeClient} (event : Event)
    (w : World) (st st1 : State) (subject out err content : string) :
  _on_config_changed event w st = (inr (), st1) →
  is_active (status st1) = true →
  is_leader w = true →
  can_connect w = true →
  _get_subject_from_csr (certificate_signing_request event) w st1
    = (inr subject, st1) →
  (String.length subject ≤ 64)%nat →
  present (config w !! "email") →
  present (config w !! "server") →
  (lego_run event w st1).1 = WaitOutput out err →
  (lego_run event w st1).2 !! chain_path subject = Some content →
  ¬ Py.contains content blank_line →
  _on_certificate_creation_request event w st =
    (inr (),
     after st1 (ActiveStatus "") (lego_run event w st1).2
       (execution_calls event w ++
        [Pull (chain_path subject);
         SetRelationCertificate content (certificate_signing_request event)
           content [content] (relation_id event);
         SetStatus (ActiveStatus "")])).
Proof.
  intros Hhook Hactive Hleader Hconnect Hsubject Hshort Hemail Hserver
    Hran Hfile Hone.
  destruct (execution_success event w st st1 subject Hhook Hactive Hleader
              Hconnect Hsubject Hshort Hemail Hserver out err content
              Hran Hfile) as (leaf & ca & Hleaf & Hca & Hfinal).
  unfold Py.split in *. rewrite (split_go_last content "" Hone) in *.
  simpl in Hleaf, Hca. injection Hleaf as <-. injection Hca as <-.
  exact Hfinal.
Qed.

(** X18 on a request for which [lego] writes a single certificate. *)
Lemma single_block_is_leaf_and_ca_witness :
  let w := Sample.world Sample.valid_config true true "example.com"
             (Sample.lego_writes "example.com" "LEAF") in
  status (_on_certificate_creation_request Sample.request w Sample.start).2
    = ActiveStatus "".
Proof.
  intros w.
  rewrite (single_block_is_leaf_and_ca Sample.request w Sample.start
             (status_set (ActiveStatus "") Sample.start) "example.com" "" ""
             "LEAF"); [done | by_evaluation.. |].
  apply (split_no_sep blank_line ltac:(done) "LEAF").
  vm_compute. by left.
Defined.

(** ** The handler of the Gandi charm *)

(** X19.  In the Gandi charm a run of the handler that returns normally
    never leaves the status [Maintenance]: the status it leaves is [Active],
    [Blocked] or [Waiting]. *)
Theorem gandi_run_does_not_end_in_maintenance (event : Event) (w : World)
    (st : State) :
  let final := _on_certificate_creation_request event w st in
  final.1 = inr () →
  is_maintenance (status final.2) = false.
Proof.
  intros final. unfold final.
  destruct (gandi_hook_cases w)
    as [(e & _ & Hhook)|(s & _ & Hhook & _ & Hblocked & _)].
  { unfold _on_certificate_creation_request.
    erewrite bind_inl by apply (Hhook event st). intros [=]. }
  destruct (handler_run_total (charm := Gandi.charm) event w st _
              (Hhook event st)) as (r & s' & fs & l & Hfinal & Hrun).
  rewrite Hfinal. cbn [fst snd status after].
  destruct Hrun; try done; cbn [status status_set] in *.
  - intros _. specialize (Hblocked ltac:(done)). by destruct s.
  - intros _. by destruct s.
Qed.

(** X19 on a request for which [lego] exits with status 1. *)
Lemma gandi_run_does_not_end_in_maintenance_witness :
  let w := Sample.world Sample.valid_config true true "example.com"
             Sample.lego_fails in
  is_maintenance
    (status (_on_certificate_creation_request Sample.request w Sample.start).2)
  = false.
Proof.
  intros w. apply gandi_run_does_not_end_in_maintenance. by_evaluation.
Defined.

(** X20.  In the Gandi charm the handler does not reach the [ValueError] of
    [_cmd]: once the hook has returned with an [Active] status the email and
    the server are set, and [_cmd] returns its command line in any state. *)
Theorem gandi_cmd_defined_after_hook (event : Event) (w : World)
    (st st1 st' : State) :
  Gandi.on_config_changed event w st = (inr (), st1) →
  is_active (status st1) = true →
  _cmd w st' =
    (inr ["lego"; "--email"; default "" (config w !! "email"); "--accept-tos";
          "--csr"; "/tmp/csr.pem"; "--server";
          default "" (config w !! "server"); "--dns"; "gandiv5"; "run"], st').
Proof.
  intros Hhook Hactive.
  destruct (gandi_hook_cases w)
    as [(e & _ & Hraises)|(s & _ & Hreturns & Hvalid & _)].
  { rewrite Hraises in Hhook. discriminate. }
  rewrite Hreturns in Hhook. injection Hhook as <-.
  apply Hvalid in Hactive as (_ & Hemail & Hserver & _).
  by apply (_cmd_eq (H := Gandi.charm)).
Qed.

(** X20 on the valid sample configuration. *)
Lemma gandi_cmd_defined_after_hook_witness :
  let w := Sample.world Sample.valid_config true true "example.com"
             Sample.lego_fails in
  (_cmd w Sample.start).2 = Sample.start.
Proof.
  intros w.
  by rewrite (gandi_cmd_defined_after_hook Sample.request w Sample.start
                (status_set (ActiveStatus "") Sample.start) Sample.start)
    by by_evaluation.
Defined.

(** X21.  In the Gandi charm, with a configuration that is not valid, every
    delivery of a request does the same whatever the state.  When [urlparse]
    raises on the server (the earlier checks passing), the handler raises
    this exception and leaves the state as it was: no status is set and the
    event is not deferred.  Otherwise the handler sets the [Blocked] status
    of the check that fails and defers the event, and the files are not
    touched. *)
Theorem gandi_invalid_config_raises_or_defers (w : World) :
  (∀ e, gandi_server_unparsable w e →
     ∀ event st, _on_certificate_creation_request event w st = (inl e, st)) ∧
  (¬ gandi_config_valid w → (∀ e, ¬ gandi_server_unparsable w e) →
     ∃ msg, ∀ event st,
       _on_certificate_creation_request event w st =
         (inr (),
          after st (BlockedStatus msg) (files st)
            [SetStatus (BlockedStatus msg); Defer event])).
Proof.
  destruct (gandi_hook_cases w)
    as [(e0 & Hraises & Hhook)|(s & Hreturns & Hhook & Hvalid & Hblocked & _)].
  - split.
    + intros e (_ & _ & _ & _ & Hparse) event st.
      destruct Hraises as (_ & _ & _ & _ & Hparse').
      assert (e = e0) as -> by congruence.
      unfold _on_certificate_creation_request.
      by erewrite bind_inl by apply (Hhook event st).
    + intros _ Hparsed. by destruct (Hparsed e0).
  - split; [intros e He; by destruct (Hreturns e) |].
    intros Hinvalid _.
    destruct (is_active s) eqn:Hactive; [destruct Hinvalid; by apply Hvalid |].
    specialize (Hblocked eq_refl). destruct s as [|msg| |]; try done.
    exists msg. intros event st.
    rewrite (path_deferred (charm := Gandi.charm) event w st _ (Hhook event st))
      by done.
    unfold after, status_set. cbn [status files calls].
    by rewrite <- app_assoc.
Qed.

(** X21 on the configuration of the unit test with an invalid email. *)
Lemma gandi_invalid_config_raises_or_defers_witness :
  ∃ msg, ∀ event st,
    _on_certificate_creation_request event
      (Sample.world Sample.invalid_email_config true true "example.com"
         Sample.lego_fails) st =
      (inr (),
       after st (BlockedStatus msg) (files st)
         [SetStatus (BlockedStatus msg); Defer event]).
Proof.
  apply gandi_invalid_config_raises_or_defers.
  - intros (_ & _ & _ & Hformat & _).
    apply _email_is_valid_spec in Hformat. by vm_compute in Hformat.
  - intros e (_ & _ & _ & Hformat & _).
    apply _email_is_valid_spec in Hformat. by vm_compute in Hformat.
Defined.

(** X22.  In the Gandi charm lego is only ever run with a valid
    configuration: when the calls a run of the handler makes contain an
    [Exec] call, the configuration is valid, the command line carries the
    email and the server of the configuration and the plugin [gandiv5], the
    timeout is 300, the working directory [/tmp], and the environment binds
    [GANDIV5_API_KEY] to the API key. *)
Theorem gandi_lego_runs_with_valid_settings (event : Event) (w : World)
    (st : State) :
  let final := _on_certificate_creation_request event w st in
  ∃ l, calls final.2 = calls st ++ l ∧
    ∀ cmd timeout working_dir env,
      Exec cmd timeout working_dir env ∈ l →
      gandi_config_valid w ∧
      cmd = ["lego"; "--email"; default "" (config w !! "email");
             "--accept-tos"; "--csr"; "/tmp/csr.pem"; "--server";
             default "" (config w !! "server"); "--dns"; "gandiv5"; "run"] ∧
      timeout = 300 ∧ working_dir = "/tmp" ∧
      env !! "GANDIV5_API_KEY" = Some (config w !! "gandi_api_key").
Proof.
  intros final. unfold final.
  destruct (gandi_hook_cases w)
    as [(e & _ & Hhook)|(s & _ & Hhook & Hvalid & _)].
  { unfold _on_certificate_creation_request.
    erewrite bind_inl by apply (Hhook event st).
    exists []. split; [by rewrite app_nil_r |]. by intros ???? ?%elem_of_nil. }
  destruct (handler_run_total (charm := Gandi.charm) event w st _ (Hhook event st))
    as (r & s' & fs & l & Hfinal & Hrun).
  rewrite Hfinal. exists (SetStatus s :: l).
  split; [cbn [snd calls after status_set]; by rewrite <- app_assoc |].
  intros cmd timeout working_dir env Hin.
  apply elem_of_cons in Hin as [[=]|Hin].
  assert (Hexec : is_active s = true ∧
                  Exec cmd timeout working_dir env ∈ execution_calls event w).
  { destruct Hrun; unfold execution_calls in *;
      rewrite ?elem_of_app, ?elem_of_cons, ?elem_of_nil in Hin;
      try (by intuition discriminate);
      (split; [done |]); rewrite ?elem_of_cons; intuition discriminate. }
  destruct Hexec as [Hactive Hexec]. apply Hvalid in Hactive.
  unfold execution_calls in Hexec.
  rewrite !elem_of_cons, elem_of_nil in Hexec.
  destruct Hexec as [[=]|[[=]|[[= -> -> -> ->]|[]]]].
  split_and!; try done. apply plugin_config_api_key.
Qed.

(** X23.  In the Gandi charm, on the leader, with a valid configuration, a
    reachable container and a subject of at most 64 characters, a successful
    run of lego that leaves the file of the chain makes the handler publish
    the chain and end with the status [Active]. *)
Theorem gandi_valid_request_is_published (event : Event) (w : World)
    (st : State) (subject out err content : string) :
  gandi_config_valid w →
  is_leader w = true →
  can_connect w = true →
  (∀ st', _get_subject_from_csr (certificate_signing_request event) w st'
          = (inr subject, st')) →
  (String.length subject ≤ 64)%nat →
  let st1 := status_set (ActiveStatus "") st in
  (lego_run event w st1).1 = WaitOutput out err →
  (lego_run event w st1).2 !! chain_path subject = Some content →
  let blocks := Py.split blank_line content in
  ∃ leaf ca,
    head blocks = Some leaf ∧ last blocks = Some ca ∧
    _on_certificate_creation_request event w st =
      (inr (),
       after st (ActiveStatus "") (lego_run event w st1).2
         (SetStatus (ActiveStatus "") ::
          execution_calls event w ++
          [Pull (chain_path subject);
           SetRelationCertificate leaf (certificate_signing_request event) ca
             (reverse blocks) (relation_id event);
           SetStatus (ActiveStatus "")])).
Proof.
  intros Hvalid Hleader Hconnect Hsubject Hshort st1 Hran Hfile blocks.
  destruct (gandi_hook_cases w)
    as [(e & Hraises & _)|(s & _ & Hhook & Hiff & _ & Hactive)].
  { destruct Hvalid as (_ & _ & _ & _ & url & Hparse & _).
    destruct Hraises as (_ & _ & _ & _ & Hparse'). congruence. }
  rewrite (Hactive (proj2 Hiff Hvalid)) in Hhook.
  destruct Hvalid as (_ & Hemail & Hserver & _).
  destruct (execution_success (charm := Gandi.charm) event w st st1 subject
              (Hhook event st) eq_refl Hleader Hconnect (Hsubject st1) Hshort
              Hemail Hserver out err content Hran Hfile)
    as (leaf & ca & Hleaf & Hca & Hfinal).
  exists leaf, ca. split_and!; [done | done |].
  rewrite Hfinal. unfold after, st1, status_set. cbn [status files calls].
  by rewrite <- app_assoc.
Qed.

(** X23 on a request for which [lego] writes a chain of three blocks. *)
Lemma gandi_valid_request_is_published_witness :
  let w := Sample.world Sample.valid_config true true "example.com"
             (Sample.lego_writes "example.com" Sample.chain3) in
  status (_on_certificate_creation_request Sample.request w Sample.start).2
    = ActiveStatus "".
Proof.
  intros w.
  destruct (gandi_valid_request_is_published Sample.request w Sample.start
              "example.com" "" "" Sample.chain3)
    as (leaf & ca & _ & _ & Hfinal).
  - split_and!; try (eexists; split; [vm_compute; reflexivity | done]).
    exists "example", "email", "com", "". by vm_compute.
  - by_evaluation.
  - by_evaluation.
  - intros st'. reflexivity.
  - by_evaluation.
  - by_evaluation.
  - by_evaluation.
  - by rewrite Hfinal.
Defined.

(** ** The order of the generic checks *)

(** X24.  [validate_generic_acme_config] checks, in this order and stopping
    at the first failure: the email is present, the server is present, the
    email has the shape of the pattern, the server parses to a scheme and a
    host.  Each of the first three failures sets its own [Blocked] message
    and returns [False]; once they pass, a server on which [urlparse] raises
    makes the function raise with the state untouched, and a server parsed
    without a scheme or without a host sets the fourth message and returns
    [False].  The result is [True] exactly when the four checks pass, and
    then the state is untouched. *)
Theorem validate_generic_acme_config_checks_in_order (w : World) (st : State) :
  let email := config w !! "email" in
  let server := config w !! "server" in
  let parsed := urlparse w (default "" server) in
  let r := validate_generic_acme_config w st in
  let blocked msg := (inr false, status_set (BlockedStatus msg) st) in
  (¬ present email → r = blocked "Email address was not provided") ∧
  (present email → ¬ present server →
     r = blocked "ACME server was not provided") ∧
  (present email → present server → ¬ email_format (default "" email) →
     r = blocked "Invalid email address") ∧
  (present email → present server → email_format (default "" email) →
     (∀ e, parsed = inl e → r = (inl e, st)) ∧
     (∀ url, parsed = inr url → ¬ (scheme url ≠ "" ∧ netloc url ≠ "") →
        r = blocked "Invalid ACME server")) ∧
  (r = (inr true, st) ↔
     present email ∧ present server ∧ email_format (default "" email) ∧
     server_well_formed w) ∧
  (r.1 = inr true ↔ r = (inr true, st)) ∧
  NoDup ["Email address was not provided"; "ACME server was not provided";
         "Invalid email address"; "Invalid ACME server"].
Proof.
  cbv zeta. unfold server_well_formed.
  pose proof (truthy_present (config w !! "email")) as He.
  pose proof (truthy_present (config w !! "server")) as Hs.
  pose proof (_email_is_valid_spec (default "" (config w !! "email"))) as Hf.
  rewrite validate_generic_acme_config_eq. cbv zeta.
  destruct (Py.truthy (config w !! "email"));
    destruct (Py.truthy (config w !! "server"));
    destruct (_email_is_valid (default "" (config w !! "email")));
    cbn [negb fst];
    (split_and!; [| | | | | |apply generic_messages_distinct]);
    try solve [intuition (discriminate || congruence)].
  - intros _ _ _. split.
    + by intros e ->.
    + intros url -> Hparts. pose proof (url_parts_truthy url) as Hurl.
      destruct (forallb _ _); [tauto | done].
  - destruct (urlparse w _) as [e|url]; [split |].
    + discriminate.
    + by intros (_ & _ & _ & url & [=] & _).
    + pose proof (url_parts_truthy url) as Hurl.
      destruct (forallb _ _); cbn [negb]; split.
      * intros _. split_and!; try tauto. exists url. split; [done | tauto].
      * done.
      * discriminate.
      * intros (_ & _ & _ & url' & [= <-] & Hparts).
        apply Hurl in Hparts. discriminate.
  - destruct (urlparse w _) as [e|url]; [done |].
    destruct (forallb _ _); cbn [negb fst]; [done |]. split; discriminate.
Qed.

(** X24 on the configuration of the unit test with an invalid email. *)
Lemma validate_generic_acme_config_checks_in_order_witness :
  validate_generic_acme_config
    (Sample.world Sample.invalid_email_config true true "example.com"
       Sample.lego_fails) Sample.start
  = (inr false,
     status_set (BlockedStatus "Invalid email address") Sample.start).
Proof.
  pose proof (validate_generic_acme_config_checks_in_order
    (Sample.world Sample.invalid_email_config true true "example.com"
       Sample.lego_fails) Sample.start) as (_ & _ & H & _).
  apply H.
  - exists "invalid-email". split; [by vm_compute | done].
  - exists Sample.acme_server. split; [by vm_compute | done].
  - rewrite <- _email_is_valid_spec. by vm_compute.
Defined.
